(** * ProductRouter: the route table of the Product resource

    A shallow embedding of [src/Web/Routes/Api/ProductRouter.js].  The file
    registers eight routes on an express [Router]; every route is a pipeline
    of middleware: the authentication middleware [UserAuth], the validation
    chains built with express-validator's [check] and [body], and a
    controller function.

    The development is layered the way the program is:
    - [Js]: the JavaScript values a JSON request carries, and the few
      language operations the source performs on them ([value.length],
      [<], the conversions behind them);
    - [Validator]: the three validator.js predicates the chains name;
    - [ExpressValidator]: validation chains and how a chain runs on a request;
    - [Express]: routers, routes and the dispatch of a request through a
      route's stack;
    - [ProductRouter]: the route table itself, line by line. *)

From Stdlib Require Import String Ascii List ZArith Lia Bool.
From Stdlib Require Import DecimalString DecimalPos.
Import ListNotations.
Local Open Scope string_scope.
Local Open Scope list_scope.

(* ------------------------------------------------------------------ *)
(** ** JavaScript values *)

Module Js.

(** The values [JSON.parse] yields, plus [undefined] (what reading an absent
    property gives).  A character of a [string] stands for one UTF-16 code
    unit.  Numbers are the integral ones, of a size [String(n)] prints as a
    plain decimal numeral. *)
#[warnings="-register-all"]
Inductive Value : Type :=
| undefined
| null
| bool (b : Datatypes.bool)
| num (n : Z)
| str (s : string)
| arr (items : list Value)
| obj (props : list (string * Value)).

Inductive Exception : Type :=
| Error (message : string)
| TypeError (message : string).

Definition message_of (e : Exception) : string :=
  match e with Error m => m | TypeError m => m end.

(** The outcome of evaluating an expression: a value, or a thrown exception. *)
Inductive Completion (A : Type) : Type :=
| Normal (a : A)
| Throw (e : Exception).
Arguments Normal {A} a.
Arguments Throw {A} e.

Definition bind {A B} (c : Completion A) (k : A -> Completion B) : Completion B :=
  match c with
  | Normal a => k a
  | Throw e => Throw e
  end.

(** Own property of an object literal. *)
Fixpoint own (props : list (string * Value)) (key : string) : option Value :=
  match props with
  | [] => None
  | (k, v) :: rest => if String.eqb k key then Some v else own rest key
  end.

Definition has_own (props : list (string * Value)) (key : string) : Datatypes.bool :=
  match own props key with Some _ => true | None => false end.

(** [o[key]] for a key that no prototype defines (a field name of a request). *)
Definition get (o : Value) (key : string) : Value :=
  match o with
  | obj props => match own props key with Some v => v | None => undefined end
  | _ => undefined
  end.

(** [value.length].  Reading a property of [undefined] or [null] throws;
    strings and arrays have a length; an object has the one it owns, if any;
    numbers and booleans have none. *)
Definition length_of (value : Value) : Completion Value :=
  match value with
  | undefined =>
      Throw (TypeError "Cannot read properties of undefined (reading 'length')")
  | null =>
      Throw (TypeError "Cannot read properties of null (reading 'length')")
  | str s => Normal (num (Z.of_nat (String.length s)))
  | arr items => Normal (num (Z.of_nat (List.length items)))
  | obj props => Normal (get value "length")
  | bool _ | num _ => Normal undefined
  end.

(** [String(n)] for an integral number. *)
Definition NumberToString (n : Z) : string :=
  NilZero.string_of_int (Z.to_int n).

Definition cannot_convert : Exception :=
  TypeError "Cannot convert object to primitive value".

(** [ToString]: the conversion behind [String(v)] and [Array.prototype.join].
    A parsed object inherits [Object.prototype.toString] unless it owns a
    property of that name; an own one is never callable (JSON has no
    functions), and the conversion then throws. *)
Fixpoint ToString (v : Value) : Completion string :=
  match v with
  | undefined => Normal "undefined"
  | null => Normal "null"
  | bool true => Normal "true"
  | bool false => Normal "false"
  | num n => Normal (NumberToString n)
  | str s => Normal s
  | arr items =>
      (fix join (l : list Value) : Completion string :=
         match l with
         | [] => Normal ""
         | x :: rest =>
             bind (match x with
                   | undefined | null => Normal ""
                   | _ => ToString x
                   end)
               (fun s =>
                  match rest with
                  | [] => Normal s
                  | _ => bind (join rest) (fun r => Normal (s ++ "," ++ r)%string)
                  end)
         end) items
  | obj props =>
      if has_own props "toString" then Throw cannot_convert
      else Normal "[object Object]"
  end.

(** [ToPrimitive]: arrays and objects become their string. *)
Definition ToPrimitive (v : Value) : Completion Value :=
  match v with
  | arr _ | obj _ => bind (ToString v) (fun s => Normal (str s))
  | _ => Normal v
  end.

Inductive Numeric : Type :=
| NaN
| Finite (z : Z).

Definition is_digit (c : ascii) : Datatypes.bool :=
  let n := nat_of_ascii c in (48 <=? n)%nat && (n <=? 57)%nat.

Definition digit_value (c : ascii) : Z := Z.of_nat (nat_of_ascii c) - 48.

(** White space a numeral may be wrapped in (the single-unit members of
    the language's WhiteSpace and LineTerminator). *)
Definition is_space (c : ascii) : Datatypes.bool :=
  let n := nat_of_ascii c in
  ((9 <=? n)%nat && (n <=? 13)%nat) || (n =? 32)%nat || (n =? 160)%nat.

Fixpoint trim_start (s : string) : string :=
  match s with
  | String c r => if is_space c then trim_start r else s
  | EmptyString => s
  end.

Fixpoint trim_end (s : string) : string :=
  match s with
  | String c r =>
      match trim_end r with
      | EmptyString => if is_space c then EmptyString else String c EmptyString
      | r' => String c r'
      end
  | EmptyString => s
  end.

Fixpoint decimal_digits (acc : Z) (s : string) : Numeric :=
  match s with
  | EmptyString => Finite acc
  | String c r =>
      if is_digit c then decimal_digits (10 * acc + digit_value c) r else NaN
  end.

Definition unsigned_decimal (s : string) : Numeric :=
  match s with
  | EmptyString => NaN
  | _ => decimal_digits 0 s
  end.

(** [StringToNumber] on integer numerals: the empty (or blank) string is 0,
    an optionally signed run of decimal digits is its value.  Numerals with
    a fraction, an exponent or a radix prefix denote numbers outside the
    integral domain of [num]; they are answered [NaN] here, and no statement
    below rests on them. *)
Definition StringToNumber (s : string) : Numeric :=
  match trim_end (trim_start s) with
  | EmptyString => Finite 0
  | String "+" r => unsigned_decimal r
  | String "-" r =>
      match unsigned_decimal r with
      | Finite z => Finite (- z)
      | NaN => NaN
      end
  | t => unsigned_decimal t
  end.

(** [ToNumber] of a primitive. *)
Definition ToNumber (p : Value) : Numeric :=
  match p with
  | undefined => NaN
  | null => Finite 0
  | bool true => Finite 1
  | bool false => Finite 0
  | num n => Finite n
  | str s => StringToNumber s
  | arr _ | obj _ => NaN
  end.

(** [x < y] for a number literal [y]: [x] is made primitive, then numeric;
    a comparison with [NaN] is false. *)
Definition lt (x : Value) (y : Z) : Completion Datatypes.bool :=
  bind (ToPrimitive x) (fun px =>
    Normal (match ToNumber px with
            | NaN => false
            | Finite a => (a <? y)%Z
            end)).

(** A value is plain when no object in it owns a [toString] property:
    every conversion of a plain value to a string succeeds. *)
Fixpoint plain (v : Value) : Datatypes.bool :=
  match v with
  | arr items =>
      (fix all (l : list Value) : Datatypes.bool :=
         match l with
         | [] => true
         | x :: rest => plain x && all rest
         end) items
  | obj props =>
      negb (has_own props "toString") &&
      (fix all (l : list (string * Value)) : Datatypes.bool :=
         match l with
         | [] => true
         | (_, x) :: rest => plain x && all rest
         end) props
  | _ => true
  end.

(** Truthiness, as [!v] and [if (v)] test it. *)
Definition truthy (v : Value) : Datatypes.bool :=
  match v with
  | undefined | null => false
  | bool b => b
  | num n => negb (n =? 0)%Z
  | str s => negb (String.eqb s "")
  | arr _ | obj _ => true
  end.

End Js.

Notation "x <- c ;; k" := (Js.bind c (fun x => k))
  (at level 61, c at next level, right associativity).

(* ------------------------------------------------------------------ *)
(** ** validator.js *)

(** The predicates on strings that the chains of the route table name, with
    their default options. *)
Module Validator.

(** [str.length === 0] *)
Definition isEmpty (str : string) : bool :=
  (String.length str =? 0)%nat.

(** Longest prefix of decimal digits, and what follows it. *)
Fixpoint span_digits (s : string) : string * string :=
  match s with
  | String c r =>
      if Js.is_digit c
      then let (d, rest) := span_digits r in (String c d, rest)
      else (EmptyString, s)
  | EmptyString => (EmptyString, EmptyString)
  end.

(** [[+-]?] *)
Definition strip_sign (str : string) : string :=
  match str with
  | String "+" r | String "-" r => r
  | _ => str
  end.

(** [([0-9]*[.])?[0-9]+$] *)
Definition unsigned_numeric (str : string) : bool :=
  let (int, rest) := span_digits str in
  match rest with
  | EmptyString => negb (String.eqb int "")
  | String "." frac =>
      let (f, tail) := span_digits frac in
      negb (String.eqb f "") && String.eqb tail ""
  | _ => false
  end.

(** The regular expression [^[+-]?([0-9]*[.])?[0-9]+$]. *)
Definition isNumeric (str : string) : bool :=
  unsigned_numeric (strip_sign str).

(** The strings of [[0-9]*]. *)
Inductive digits : string -> Prop :=
| digits_nil : digits ""
| digits_cons c s : Js.is_digit c = true -> digits s -> digits (String c s).

(** The strings of [^[+-]?([0-9]*[.])?[0-9]+$], part by part. *)
Definition numeric (str : string) : Prop :=
  exists sign opt ds,
    str = (sign ++ opt ++ ds)%string
    /\ (sign = "" \/ sign = "+" \/ sign = "-")
    /\ (opt = "" \/ exists i, digits i /\ opt = (i ++ ".")%string)
    /\ digits ds /\ ds <> "".

(** [['true', 'false', '1', '0'].includes(str)] *)
Definition isBoolean (str : string) : bool :=
  existsb (String.eqb str) ["true"; "false"; "1"; "0"].

End Validator.

(* ------------------------------------------------------------------ *)
(** ** Requests *)

(** The places of a request a validation chain reads a field from. *)
Inductive Location : Type :=
| InBody
| InCookies
| InHeaders
| InParams
| InQuery.

(** One entry of what [validationResult(req)] reports. *)
Record ValidationError : Type := {
  value : Js.Value;
  msg : string;
  param : string;
  location : Location
}.

(** An express request, as far as the pipelines of the route table read and
    write it: the five places fields come from, the identity the
    authentication middleware attaches, and the validation contexts the
    chains append (each the errors one chain found). *)
Record Request : Type := {
  req_body : Js.Value;
  req_cookies : Js.Value;
  req_headers : Js.Value;
  req_params : Js.Value;
  req_query : Js.Value;
  req_user : Js.Value;
  req_contexts : list (list ValidationError)
}.

Definition at_location (req : Request) (l : Location) : Js.Value :=
  match l with
  | InBody => req_body req
  | InCookies => req_cookies req
  | InHeaders => req_headers req
  | InParams => req_params req
  | InQuery => req_query req
  end.

Definition with_user (req : Request) (u : Js.Value) : Request :=
  {| req_body := req_body req; req_cookies := req_cookies req;
     req_headers := req_headers req; req_params := req_params req;
     req_query := req_query req; req_user := u;
     req_contexts := req_contexts req |}.

Definition with_context (req : Request) (errors : list ValidationError) : Request :=
  {| req_body := req_body req; req_cookies := req_cookies req;
     req_headers := req_headers req; req_params := req_params req;
     req_query := req_query req; req_user := req_user req;
     req_contexts := req_contexts req ++ [errors] |}.

(** [validationResult(req).array()] *)
Definition validationResult (req : Request) : list ValidationError :=
  concat (req_contexts req).

(* ------------------------------------------------------------------ *)
(** ** express-validator *)

(** Validation chains as express-validator 6 has them: a chain is built by
    [check] or [body] and the methods called on it, and is itself a
    middleware.  Run on a request it selects the instances of its field,
    applies its validators to each and records the errors on the request;
    it answers no request itself: errors are for whoever reads
    [validationResult(req)]. *)
Module ExpressValidator.

(** The string a standard validator is given for a field value.  An array
    stands for its first element; [undefined] and [null] are the empty
    string; an object is whatever its [toString] makes of it. *)
Definition toString_shallow (v : Js.Value) : Js.Completion string :=
  match v with
  | Js.undefined | Js.null => Js.Normal ""
  | Js.arr _ => Js.ToString v
  | Js.obj props =>
      match Js.own props "toString" with
      | None => Js.Normal "[object Object]"
      | Some t =>
          if Js.truthy t
          then Js.Normal (String.concat "," (map fst props))
          else Js.Throw Js.cannot_convert
      end
  | _ => Js.ToString v
  end.

Definition toString (v : Js.Value) : Js.Completion string :=
  match v with
  | Js.arr (first :: _) => toString_shallow first
  | _ => toString_shallow v
  end.

(** The validator.js predicates a chain can name. *)
Inductive StandardValidator : Type :=
| IsEmpty
| IsNumeric
| IsBoolean.

Definition standard (v : StandardValidator) : string -> bool :=
  match v with
  | IsEmpty => Validator.isEmpty
  | IsNumeric => Validator.isNumeric
  | IsBoolean => Validator.isBoolean
  end.

(** What a custom validator is: a function of the raw field value and the
    request; it reports failure by a falsy result or by throwing. *)
Definition CustomValidator : Type := Js.Value -> Request -> Js.Completion Js.Value.

Inductive ContextItem : Type :=
| StandardValidation (validator : StandardValidator) (negated : bool)
| CustomValidation (validator : CustomValidator) (negated : bool).

(** A validation chain under construction and, once built, as middleware. *)
Record ValidationChain : Type := {
  field : string;
  locations : list Location;
  message : option string;
  stack : list ContextItem;
  negateNext : bool
}.

(** [check(field, message)]: the field, wherever in the request it is. *)
Definition check (field message : string) : ValidationChain :=
  {| field := field;
     locations := [InBody; InCookies; InHeaders; InParams; InQuery];
     message := Some message; stack := []; negateNext := false |}.

(** [body(field)]: the field of the request body. *)
Definition body (field : string) : ValidationChain :=
  {| field := field; locations := [InBody];
     message := None; stack := []; negateNext := false |}.

(** [.not()] *)
Definition not_ (c : ValidationChain) : ValidationChain :=
  {| field := field c; locations := locations c; message := message c;
     stack := stack c; negateNext := true |}.

Definition add_item (mk : bool -> ContextItem) (c : ValidationChain) : ValidationChain :=
  {| field := field c; locations := locations c; message := message c;
     stack := stack c ++ [mk (negateNext c)]; negateNext := false |}.

(** [.isEmpty()], [.isNumeric()], [.isBoolean()], [.custom(validator)] *)
Definition isEmpty : ValidationChain -> ValidationChain :=
  add_item (StandardValidation IsEmpty).
Definition isNumeric : ValidationChain -> ValidationChain :=
  add_item (StandardValidation IsNumeric).
Definition isBoolean : ValidationChain -> ValidationChain :=
  add_item (StandardValidation IsBoolean).
Definition custom (validator : CustomValidator) : ValidationChain -> ValidationChain :=
  add_item (CustomValidation validator).

(** *** Running a chain *)

Record FieldInstance : Type := {
  inst_location : Location;
  inst_path : string;
  inst_value : Js.Value
}.

Definition lower (c : ascii) : ascii :=
  let n := nat_of_ascii c in
  if (65 <=? n)%nat && (n <=? 90)%nat then ascii_of_nat (n + 32) else c.

Fixpoint toLowerCase (s : string) : string :=
  match s with
  | String c r => String (lower c) (toLowerCase r)
  | EmptyString => EmptyString
  end.

(** The path of a field in a location: header names are lower case. *)
Definition path_in (l : Location) (field : string) : string :=
  match l with
  | InHeaders => toLowerCase field
  | _ => field
  end.

Definition instance_at (req : Request) (field : string) (l : Location)
  : FieldInstance :=
  {| inst_location := l; inst_path := path_in l field;
     inst_value := Js.get (at_location req l) (path_in l field) |}.

(** One instance of the field per location. *)
Definition selectFields (req : Request) (field : string) (locs : list Location)
  : list FieldInstance :=
  map (instance_at req field) locs.

Definition is_defined (v : Js.Value) : bool :=
  match v with Js.undefined => false | _ => true end.

(** When a field is looked for in several locations, those that have it are
    validated; when none has, the first stands for the missing field. *)
Definition getData (instances : list FieldInstance) : list FieldInstance :=
  match instances with
  | first :: _ :: _ =>
      match filter (fun i => is_defined (inst_value i)) instances with
      | [] => [first]
      | withValue => withValue
      end
  | _ => instances
  end.

Definition error_of (message : string) (i : FieldInstance) (v : Js.Value)
  : ValidationError :=
  {| value := v; msg := message;
     param := inst_path i; location := inst_location i |}.

Definition message_or_default (message : option string) : string :=
  match message with Some m => m | None => "Invalid value" end.

(** A standard validator sees the string of the value, or of each element
    when the value is an array. *)
Fixpoint run_standard (validator : string -> bool) (negated : bool)
    (message : string) (i : FieldInstance) (values : list Js.Value)
  : Js.Completion (list ValidationError) :=
  match values with
  | [] => Js.Normal []
  | v :: rest =>
      s <- toString v ;;
      errors <- run_standard validator negated message i rest ;;
      let result := validator s in
      Js.Normal (if (if negated then result else negb result)
                 then error_of message i v :: errors
                 else errors)
  end.

(** A custom validator sees the raw value.  What it throws is caught and
    recorded under the thrown message. *)
Definition run_custom (validator : CustomValidator) (negated : bool)
    (message : option string) (req : Request) (i : FieldInstance)
  : list ValidationError :=
  match validator (inst_value i) req with
  | Js.Normal result =>
      if (if negated then Js.truthy result else negb (Js.truthy result))
      then [error_of (message_or_default message) i (inst_value i)]
      else []
  | Js.Throw e =>
      if negated then []
      else [error_of (if String.eqb (Js.message_of e) ""
                      then message_or_default message
                      else Js.message_of e) i (inst_value i)]
  end.

Definition run_item (item : ContextItem) (message : option string)
    (req : Request) (i : FieldInstance) : Js.Completion (list ValidationError) :=
  match item with
  | StandardValidation v negated =>
      run_standard (standard v) negated (message_or_default message) i
        (match inst_value i with
         | Js.arr items => items
         | v => [v]
         end)
  | CustomValidation f negated =>
      Js.Normal (run_custom f negated message req i)
  end.

Fixpoint run_instances (item : ContextItem) (message : option string)
    (req : Request) (data : list FieldInstance)
  : Js.Completion (list ValidationError) :=
  match data with
  | [] => Js.Normal []
  | i :: rest =>
      here <- run_item item message req i ;;
      there <- run_instances item message req rest ;;
      Js.Normal (here ++ there)
  end.

Fixpoint run_stack (items : list ContextItem) (message : option string)
    (req : Request) (data : list FieldInstance)
  : Js.Completion (list ValidationError) :=
  match items with
  | [] => Js.Normal []
  | item :: rest =>
      here <- run_instances item message req data ;;
      there <- run_stack rest message req data ;;
      Js.Normal (here ++ there)
  end.

(** The errors a chain finds in a request, or the exception that escaped
    from a conversion. *)
Definition run (c : ValidationChain) (req : Request)
  : Js.Completion (list ValidationError) :=
  run_stack (stack c) (message c) req
    (getData (selectFields req (field c) (locations c))).

End ExpressValidator.

(* ------------------------------------------------------------------ *)
(** ** express *)

(** Routers as express has them: a registration flattens its handlers into
    the stack of a route, and a request runs down the stack of the route
    that takes it, each middleware deciding whether the next one is
    called. *)
Module Express.

Inductive Method : Type :=
| GET
| POST
| PUT
| PATCH
| DELETE.

Definition method_eqb (a b : Method) : bool :=
  match a, b with
  | GET, GET | POST, POST | PUT, PUT | PATCH, PATCH | DELETE, DELETE => true
  | _, _ => false
  end.

(** The handlers of a registration: functions, and arrays of handlers. *)
#[warnings="-register-all"]
Inductive Handlers (M : Type) : Type :=
| fn (m : M)
| array (hs : list (Handlers M)).
Arguments fn {M} m.
Arguments array {M} hs.

(** The arrays are flattened into one stack, in order. *)
Fixpoint flatten {M} (h : Handlers M) : list M :=
  match h with
  | fn m => [m]
  | array hs =>
      (fix each (l : list (Handlers M)) : list M :=
         match l with
         | [] => []
         | x :: rest => flatten x ++ each rest
         end) hs
  end.

Record Route (M : Type) : Type := {
  method : Method;
  path : string;
  stack : list M
}.
Arguments method {M} r.
Arguments path {M} r.
Arguments stack {M} r.

(** A router is its routes, in the order they were registered. *)
Definition Router (M : Type) : Type := list (Route M).

Definition register {M} (m : Method) (p : string) (handlers : list (Handlers M))
    (router : Router M) : Router M :=
  router ++ [{| method := m; path := p; stack := flatten (array handlers) |}].

Definition get {M} := @register M GET.
Definition post {M} := @register M POST.
Definition put {M} := @register M PUT.
Definition patch {M} := @register M PATCH.
Definition delete {M} := @register M DELETE.

(** What a middleware does with a request: hand it on ([next()]), give up
    with an error ([next(err)]), or answer it. *)
Inductive Step (Res : Type) : Type :=
| next (req : Request)
| next_error (e : Js.Exception)
| send (res : Res).
Arguments next {Res} req.
Arguments next_error {Res} e.
Arguments send {Res} res.

(** How a request ends: answered by a middleware, failed with an error
    (no route of the table handles errors), or left unanswered. *)
Inductive Result (Res : Type) : Type :=
| Sent (res : Res)
| Failed (e : Js.Exception)
| Unhandled.
Arguments Sent {Res} res.
Arguments Failed {Res} e.
Arguments Unhandled {Res}.

(** The middleware that were called, each with the request it was given,
    and how the request ended. *)
Record Exchange (M Res : Type) : Type := {
  calls : list (M * Request);
  result : Result Res
}.
Arguments calls {M Res} e.
Arguments result {M Res} e.

Section Dispatch.
Context {M Res : Type}.
Variable call : M -> Request -> Step Res.

Fixpoint dispatch (stack : list M) (req : Request) : Exchange M Res :=
  match stack with
  | [] => {| calls := []; result := Unhandled |}
  | m :: rest =>
      match call m req with
      | next req' =>
          let e := dispatch rest req' in
          {| calls := (m, req) :: calls e; result := result e |}
      | next_error e => {| calls := [(m, req)]; result := Failed e |}
      | send res => {| calls := [(m, req)]; result := Sent res |}
      end
  end.

Definition matches (m : Method) (p : string) (r : Route M) : bool :=
  method_eqb (method r) m && String.eqb (path r) p.

(** The first route registered for the method and path takes the request. *)
Definition handle (router : Router M) (m : Method) (p : string) (req : Request)
  : Exchange M Res :=
  match find (matches m p) router with
  | Some r => dispatch (stack r) req
  | None => {| calls := []; result := Unhandled |}
  end.
End Dispatch.

End Express.

(* ------------------------------------------------------------------ *)
(** ** The collaborators of the route table *)

(** The controller functions the route table imports from
    [Controller/ProductController.js]. *)
Inductive Controller : Type :=
| AddProduct
| AddProductToCart
| DeleteProduct
| EditProduct
| GetExchangeProducts
| GetProductById
| GetSellingProducts
| LikeProduct.

(** The functions a route of the table stacks: the authentication
    middleware imported from [Middleware/UserAuth.js], a validation chain,
    a controller. *)
Inductive Middleware : Type :=
| UserAuth
| Validation (chain : ExpressValidator.ValidationChain)
| Handler (controller : Controller).

(** The answers a pipeline of the table can end in: the refusal of the
    authentication middleware, or whatever the controller answers to the
    request it was given. *)
Inductive Response : Type :=
| Unauthorized
| Answer (controller : Controller) (req : Request).

Notation "c |> f" := (f c) (at level 45, left associativity, only parsing).

(* ------------------------------------------------------------------ *)
(** ** ProductRouter.js *)

(** The custom validator of [body('images')] in [/AddProduct]
    (lines 62-68). *)
Definition AddProduct_images : ExpressValidator.CustomValidator :=
  fun value req =>
    len <- Js.length_of value ;;
    short <- Js.lt len 3 ;;
    if short
    then Js.Throw (Js.Error "Each product should have at least 3 images")
    else Js.Normal (Js.bool true).

(** The custom validator of [body('images')] in [/EditProduct]
    (lines 282-288). *)
Definition EditProduct_images : ExpressValidator.CustomValidator :=
  fun value req =>
    len <- Js.length_of value ;;
    short <- Js.lt len 3 ;;
    if short
    then Js.Throw (Js.Error "Each product should have at least 3 images")
    else Js.Normal (Js.bool true).

Import ExpressValidator Express.

Definition chain (c : ValidationChain) : Handlers Middleware := fn (Validation c).

Definition ProductRouter : Router Middleware :=
  []
  |> post "/AddProduct"
       [ array
           [ fn UserAuth;
             array
               [ chain (check "productName" "Product name is required" |> not_ |> isEmpty);
                 chain (check "price" "Price should be a number" |> isNumeric);
                 chain (check "forExchange" "ForExchange should be boolean" |> isBoolean);
                 chain (check "description" "Description is required" |> not_ |> isEmpty);
                 chain (check "categoryId" "Category should be a number" |> not_ |> isEmpty);
                 chain (check "cityId" "City should be a number" |> not_ |> isEmpty);
                 chain (check "conditionId" "Condition should be a number" |> not_ |> isEmpty);
                 chain (body "images" |> custom AddProduct_images) ] ];
         fn (Handler AddProduct) ]
  |> patch "/LikeProduct"
       [ array
           [ fn UserAuth;
             array
               [ chain (check "productId" "Product id is required" |> not_ |> isEmpty) ] ];
         fn (Handler LikeProduct) ]
  |> patch "/AddProductToCart"
       [ array
           [ fn UserAuth;
             array
               [ chain (check "productId" "Product id is required" |> not_ |> isEmpty) ] ];
         fn (Handler AddProductToCart) ]
  |> get "/GetProductById"
       [ fn UserAuth;
         fn (Handler GetProductById) ]
  |> get "/GetSellingProducts"
       [ fn UserAuth;
         fn (Handler GetSellingProducts) ]
  |> get "/GetExchangeProducts"
       [ fn UserAuth;
         fn (Handler GetExchangeProducts) ]
  |> put "/EditProduct"
       [ array
           [ fn UserAuth;
             array
               [ chain (check "productId" "Product id is required" |> not_ |> isEmpty);
                 chain (check "productName" "Product name is required" |> not_ |> isEmpty);
                 chain (check "price" "Price should be a number" |> isNumeric);
                 chain (check "forExchange" "ForExchange should be boolean" |> isBoolean);
                 chain (check "description" "Description is required" |> not_ |> isEmpty);
                 chain (check "categoryId" "Category should be a number" |> not_ |> isEmpty);
                 chain (check "cityId" "City should be a number" |> not_ |> isEmpty);
                 chain (check "conditionId" "Condition should be a number" |> not_ |> isEmpty);
                 chain (body "images" |> custom EditProduct_images) ] ];
         fn (Handler EditProduct) ]
  |> delete "/DeleteProduct"
       [ array
           [ fn UserAuth;
             array
               [ chain (check "productId" "Product id is required" |> not_ |> isEmpty) ] ];
         fn (Handler DeleteProduct) ].

(* ------------------------------------------------------------------ *)
(** ** Serving a request *)

Section Serving.

(** What the authentication middleware makes of a token: the identity it
    stands for, if it is valid. *)
Variable verify : string -> option Js.Value.

(** The identity a request carries in its [x-auth-token] header. *)
Definition authenticate (req : Request) : option Js.Value :=
  match Js.get (req_headers req) "x-auth-token" with
  | Js.str token => verify token
  | _ => None
  end.

(** Modelled from the spec: [Middleware/UserAuth.js] is not among the
    sources.  The middleware "accepts/rejects based on the x-auth-token
    header and attaches identity to the request, or halts the pipeline
    with an unauthorized response". *)
Definition call_UserAuth (req : Request) : Step Response :=
  match authenticate req with
  | Some identity => next (with_user req identity)
  | None => send Unauthorized
  end.

(** Modelled from the spec: [Controller/ProductController.js] is not among
    the sources.  A handler is a function "accepting a validated request
    and producing an HTTP response"; the response is left as the handler's
    answer to the request it received. *)
Definition call_Handler (c : Controller) (req : Request) : Step Response :=
  send (Answer c req).

(** A validation chain used as middleware: it runs, appends what it found
    to the request and hands the request on; an exception that escaped
    the run is handed on as an error. *)
Definition call_Validation (c : ValidationChain) (req : Request) : Step Response :=
  match ExpressValidator.run c req with
  | Js.Normal errors => next (with_context req errors)
  | Js.Throw e => next_error e
  end.

Definition call (m : Middleware) (req : Request) : Step Response :=
  match m with
  | UserAuth => call_UserAuth req
  | Validation c => call_Validation c req
  | Handler c => call_Handler c req
  end.

(** A request for a method and path of the router. *)
Definition serve (m : Method) (p : string) (req : Request)
  : Exchange Middleware Response :=
  handle call ProductRouter m p req.

End Serving.

(* ------------------------------------------------------------------ *)
(** ** Reading the table *)

(** The route registered for a method and path. *)
Definition route_of (m : Method) (p : string) : option (Route Middleware) :=
  find (matches m p) ProductRouter.

(** The validation chains of a stack, in order. *)
Fixpoint chains_of (stack : list Middleware) : list ValidationChain :=
  match stack with
  | [] => []
  | Validation c :: rest => c :: chains_of rest
  | _ :: rest => chains_of rest
  end.

(** The handlers that were called in an exchange, in order. *)
Definition handlers_called (e : Exchange Middleware Response) : list Controller :=
  flat_map (fun c => match fst c with Handler h => [h] | _ => [] end) (calls e).

(** The validation chains that were run in an exchange. *)
Definition chains_run (e : Exchange Middleware Response) : list ValidationChain :=
  chains_of (map fst (calls e)).

(** The kinds of field rule the table uses. *)
Inductive Predicate : Type :=
| NonEmpty
| Numeric
| Boolean
| Custom.

Record FieldRule : Type := {
  fieldName : string;
  predicate : Predicate;
  errorMessage : option string
}.

Definition predicate_of (items : list ContextItem) : option Predicate :=
  match items with
  | [StandardValidation IsEmpty true] => Some NonEmpty
  | [StandardValidation IsNumeric false] => Some Numeric
  | [StandardValidation IsBoolean false] => Some Boolean
  | [CustomValidation _ false] => Some Custom
  | _ => None
  end.

(** A chain read as one field rule, when it is one. *)
Definition rule_of (c : ValidationChain) : option FieldRule :=
  match predicate_of (ExpressValidator.stack c) with
  | Some p =>
      Some {| fieldName := field c; predicate := p; errorMessage := message c |}
  | None => None
  end.

Definition rule (f : string) (p : Predicate) (m : string) : option FieldRule :=
  Some {| fieldName := f; predicate := p; errorMessage := Some m |}.

(** A chain applied to one value of its field. *)
Definition validate (c : ValidationChain) (req : Request) (l : Location) (v : Js.Value)
  : Js.Completion (list ValidationError) :=
  ExpressValidator.run_stack (ExpressValidator.stack c) (message c) req
    [{| inst_location := l; inst_path := path_in l (field c); inst_value := v |}].

(** The value of a field in a location of a request. *)
Definition field_at (req : Request) (l : Location) (f : string) : Js.Value :=
  inst_value (instance_at req f l).

Definition all_locations : list Location :=
  [InBody; InCookies; InHeaders; InParams; InQuery].

(** Every field of the request is plain. *)
Definition plain_request (req : Request) : bool :=
  forallb (fun l => Js.plain (at_location req l)) all_locations.

(** The field is nowhere in the request, or is the empty string where it is. *)
Definition missing_or_empty (req : Request) (f : string) : bool :=
  forallb (fun l => match field_at req l f with
                    | Js.undefined => true
                    | Js.str s => String.eqb s ""
                    | _ => false
                    end) all_locations.

(** The request a handler was given as the answer was sent, if one was. *)
Definition handed_on (e : Exchange Middleware Response) : option Request :=
  match result e with
  | Sent (Answer _ req) => Some req
  | _ => None
  end.

(** The messages of the validation errors on the request handed on. *)
Definition messages_handed_on (e : Exchange Middleware Response) : option (list string) :=
  option_map (fun req => map msg (validationResult req)) (handed_on e).

(** The error the custom validators of [images] throw, as recorded. *)
Definition images_error (v : Js.Value) : ValidationError :=
  {| value := v; msg := "Each product should have at least 3 images";
     param := "images"; location := InBody |}.

(** The field is in no location of the request but, possibly, the body. *)
Definition absent_outside_body (req : Request) (f : string) : bool :=
  forallb (fun l => negb (is_defined (field_at req l f)))
    [InCookies; InHeaders; InParams; InQuery].

(** Two requests that differ at most in their validation contexts. *)
Definition same_fields (a b : Request) : Prop :=
  forall l, at_location a l = at_location b l.

(** The validation chains and the handler a method and path are routed to. *)
Definition validators (m : Method) (p : string) : list ValidationChain :=
  match route_of m p with
  | Some r => chains_of (Express.stack r)
  | None => []
  end.

(** The chain a method and path are routed through for a given field. *)
Definition chain_of (m : Method) (p : string) (f : string) : option ValidationChain :=
  find (fun c => String.eqb (field c) f) (validators m p).

(** The stack a method and path are routed through. *)
Definition stack_of (m : Method) (p : string) : list Middleware :=
  match route_of m p with
  | Some r => Express.stack r
  | None => []
  end.

(** The validation pipeline of EditProduct in the words of the
    specification, "productId non-empty plus the same field set as
    AddProduct"; the table's own is [validators PUT "/EditProduct"]. *)
Definition EditProduct_as_specified : list ValidationChain :=
  (check "productId" "Product id is required" |> not_ |> isEmpty)
    :: validators POST "/AddProduct".

(* ------------------------------------------------------------------ *)
(** ** Sample requests *)

Module Sample.

(** An authentication that knows one token. *)
Definition verify (token : string) : option Js.Value :=
  if String.eqb token "secret" then Some (Js.str "user-1") else None.

Definition request (headers body : Js.Value) : Request :=
  {| req_body := body; req_cookies := Js.obj []; req_headers := headers;
     req_params := Js.obj []; req_query := Js.obj [];
     req_user := Js.undefined; req_contexts := [] |}.

Definition with_token : Js.Value := Js.obj [("x-auth-token", Js.str "secret")].
Definition without_token : Js.Value := Js.obj [].

Definition product (images : Js.Value) : Js.Value :=
  Js.obj
    [ ("productName", Js.str "Bike");
      ("price", Js.str "100");
      ("forExchange", Js.str "false");
      ("description", Js.str "Used bike");
      ("categoryId", Js.str "1");
      ("cityId", Js.str "1");
      ("conditionId", Js.str "1");
      ("images", images) ].

Definition bike : Js.Value :=
  product (Js.arr [Js.str "a.jpg"; Js.str "b.jpg"; Js.str "c.jpg"]).

Definition one_image : Js.Value := product (Js.arr [Js.str "a.jpg"]).

End Sample.

(* ------------------------------------------------------------------ *)
(** * Properties *)

(** ** validator.js: the shape of a numeric string *)

Lemma span_digits_spec s :
  let (d, r) := Validator.span_digits s in
  s = (d ++ r)%string /\ Validator.digits d
  /\ match r with String c _ => Js.is_digit c = false | EmptyString => True end.
Proof.
  induction s as [ | c s IH ]; simpl.
  - repeat split; constructor.
  - destruct (Js.is_digit c) eqn:Hc.
    + destruct (Validator.span_digits s) as [d r]. destruct IH as (-> & Hd & Hr).
      repeat split; [constructor; assumption | exact Hr].
    + repeat split; [constructor | exact Hc].
Qed.

Lemma span_digits_app d r :
  Validator.digits d ->
  match r with String c _ => Js.is_digit c = false | EmptyString => True end ->
  Validator.span_digits (d ++ r) = (d, r).
Proof.
  intros Hd Hr. induction Hd as [ | c s Hc _ IH ]; simpl.
  - destruct r as [ | c r ]; [reflexivity | ]. simpl. rewrite Hr. reflexivity.
  - rewrite Hc, IH. reflexivity.
Qed.

Lemma string_app_nil_r (s : string) : (s ++ "")%string = s.
Proof. induction s; simpl; congruence. Qed.

Lemma string_app_assoc (a b c : string) :
  ((a ++ b) ++ c)%string = (a ++ b ++ c)%string.
Proof. induction a; simpl; congruence. Qed.

Lemma eqb_empty_false s : s <> "" -> String.eqb s "" = false.
Proof. destruct s; [contradiction | reflexivity]. Qed.

Lemma unsigned_numeric_spec u :
  Validator.unsigned_numeric u = true
  <-> exists opt ds,
        u = (opt ++ ds)%string
        /\ (opt = "" \/ exists i, Validator.digits i /\ opt = (i ++ ".")%string)
        /\ Validator.digits ds /\ ds <> "".
Proof.
  unfold Validator.unsigned_numeric. split.
  - pose proof (span_digits_spec u) as Hu.
    destruct (Validator.span_digits u) as [int rest]. destruct Hu as (-> & Hint & Hrest).
    destruct rest as [ | c frac ].
    + intros H. exists "", int. rewrite string_app_nil_r.
      repeat split; auto. intros ->. discriminate H.
    + destruct (Ascii.eqb_spec c ".") as [-> | Hc].
      * pose proof (span_digits_spec frac) as Hf.
        destruct (Validator.span_digits frac) as [f tail]. destruct Hf as (-> & Hf & _).
        intros H. apply andb_true_iff in H. destruct H as [Hne Htail].
        apply String.eqb_eq in Htail. subst tail. rewrite string_app_nil_r.
        exists (int ++ ".")%string, f. rewrite string_app_assoc.
        repeat split; eauto. intros ->. discriminate Hne.
      * intros H. exfalso. revert H.
        destruct c as [[] [] [] [] [] [] [] []]; try discriminate. contradiction.
  - intros (opt & ds & -> & Hopt & Hds & Hne).
    destruct Hopt as [-> | (i & Hi & ->)].
    + simpl. rewrite <- (string_app_nil_r ds) at 1.
      rewrite (span_digits_app ds "" Hds I). rewrite (eqb_empty_false ds Hne). reflexivity.
    + rewrite string_app_assoc. simpl.
      rewrite (span_digits_app i (String "." ds) Hi eq_refl).
      rewrite <- (string_app_nil_r ds) at 1.
      rewrite (span_digits_app ds "" Hds I). rewrite (eqb_empty_false ds Hne). reflexivity.
Qed.

Lemma strip_sign_unsigned c r :
  c <> "+"%char -> c <> "-"%char ->
  Validator.strip_sign (String c r) = String c r.
Proof.
  intros Hplus Hminus.
  destruct c as [[] [] [] [] [] [] [] []]; try reflexivity; contradiction.
Qed.

Lemma digit_is_no_sign c :
  Js.is_digit c = true -> c <> "+"%char /\ c <> "-"%char.
Proof. intros H. split; intros ->; discriminate H. Qed.

(** [isNumeric] accepts the strings of the regular expression, and no other. *)
Lemma isNumeric_spec str :
  Validator.isNumeric str = true <-> Validator.numeric str.
Proof.
  unfold Validator.isNumeric, Validator.numeric. split.
  - intros H.
    assert (Hcases : (Validator.strip_sign str = str)
                     \/ (exists r, str = String "+" r /\ Validator.strip_sign str = r)
                     \/ (exists r, str = String "-" r /\ Validator.strip_sign str = r)).
    { destruct str as [ | c r ]; [left; reflexivity | ].
      destruct (Ascii.eqb_spec c "+") as [-> | Hplus]; [right; left; eauto | ].
      destruct (Ascii.eqb_spec c "-") as [-> | Hminus]; [right; right; eauto | ].
      left. apply strip_sign_unsigned; assumption. }
    destruct Hcases as [Heq | [(r & -> & Heq) | (r & -> & Heq)]];
      rewrite Heq in H; apply unsigned_numeric_spec in H;
      destruct H as (opt & ds & -> & Hopt & Hds & Hne).
    + exists "", opt, ds. auto.
    + exists "+", opt, ds. auto.
    + exists "-", opt, ds. auto.
  - intros (sign & opt & ds & -> & Hsign & Hopt & Hds & Hne).
    assert (Hu : Validator.unsigned_numeric (opt ++ ds) = true)
      by (apply unsigned_numeric_spec; exists opt, ds; tauto).
    destruct Hsign as [-> | [-> | ->]]; [ | exact Hu | exact Hu].
    simpl. destruct (opt ++ ds)%string as [ | c r ] eqn:Hu'; [exact Hu | ].
    rewrite strip_sign_unsigned; [exact Hu | | ].
    all: destruct Hopt as [-> | (i & Hi & ->)]; simpl in Hu'.
    all: try (destruct Hds as [ | d ds' Hd _ ]; [contradiction | ];
              injection Hu' as <- _; apply digit_is_no_sign in Hd; tauto).
    all: destruct Hi as [ | d i' Hd _ ]; simpl in Hu'; injection Hu' as <- _;
      [discriminate | apply digit_is_no_sign in Hd; tauto].
Qed.

(** ** Conversions of plain values *)

Section ValueInduction.
Variable P : Js.Value -> Prop.
Hypothesis P_undefined : P Js.undefined.
Hypothesis P_null : P Js.null.
Hypothesis P_bool : forall b, P (Js.bool b).
Hypothesis P_num : forall n, P (Js.num n).
Hypothesis P_str : forall s, P (Js.str s).
Hypothesis P_arr : forall items, Forall P items -> P (Js.arr items).
Hypothesis P_obj :
  forall props, Forall (fun kv => P (snd kv)) props -> P (Js.obj props).

Lemma Value_nested_ind : forall v, P v.
Proof.
  fix IH 1.
  intros [ | | b | n | s | items | props ].
  - exact P_undefined.
  - exact P_null.
  - exact (P_bool b).
  - exact (P_num n).
  - exact (P_str s).
  - apply P_arr. induction items as [ | x rest IHrest ]; constructor.
    + exact (IH x).
    + exact IHrest.
  - apply P_obj. induction props as [ | [k x] rest IHrest ]; constructor.
    + exact (IH x).
    + exact IHrest.
Qed.
End ValueInduction.

Lemma plain_arr_cons x rest :
  Js.plain (Js.arr (x :: rest)) = Js.plain x && Js.plain (Js.arr rest).
Proof. reflexivity. Qed.

Lemma plain_arr_Forall items :
  Js.plain (Js.arr items) = true -> Forall (fun x => Js.plain x = true) items.
Proof.
  induction items as [ | x rest IH ]; intros H; constructor.
  - rewrite plain_arr_cons in H. apply andb_true_iff in H. tauto.
  - apply IH. rewrite plain_arr_cons in H. apply andb_true_iff in H. tauto.
Qed.

Lemma ToString_arr_cons x rest :
  Js.ToString (Js.arr (x :: rest)) =
  Js.bind (match x with
           | Js.undefined | Js.null => Js.Normal ""
           | _ => Js.ToString x
           end)
    (fun s => match rest with
              | [] => Js.Normal s
              | _ => Js.bind (Js.ToString (Js.arr rest))
                       (fun r => Js.Normal (s ++ "," ++ r)%string)
              end).
Proof. reflexivity. Qed.

Lemma plain_ToString v :
  Js.plain v = true -> exists s, Js.ToString v = Js.Normal s.
Proof.
  induction v as [ | | b | n | s | items IH | props IH ] using Value_nested_ind;
    intros Hp; try (eexists; reflexivity).
  - destruct b; eexists; reflexivity.
  - apply plain_arr_Forall in Hp.
    induction IH as [ | x rest Hx Hrest IHrest ].
    + eexists; reflexivity.
    + inversion Hp as [ | ? ? Hpx Hprest ]; subst.
      destruct (Hx Hpx) as [sx Hsx]. destruct (IHrest Hprest) as [sr Hsr].
      rewrite ToString_arr_cons, Hsr.
      assert (Hel : exists s, match x with
                              | Js.undefined | Js.null => Js.Normal ""
                              | _ => Js.ToString x
                              end = Js.Normal s)
        by (destruct x; eauto).
      destruct Hel as [se Hse]. rewrite Hse. simpl.
      destruct rest; eexists; reflexivity.
  - simpl in Hp. apply andb_true_iff in Hp. destruct Hp as [Hno _].
    simpl. destruct (Js.has_own props "toString"); [discriminate | eauto].
Qed.

Lemma plain_toString_shallow v :
  Js.plain v = true -> exists s, ExpressValidator.toString_shallow v = Js.Normal s.
Proof.
  intros Hp. destruct v as [ | | b | n | s | items | props ];
    try (apply plain_ToString; exact Hp); try (eexists; reflexivity).
  simpl in Hp. apply andb_true_iff in Hp. destruct Hp as [Hno _].
  unfold ExpressValidator.toString_shallow, Js.has_own in *.
  destruct (Js.own props "toString"); [discriminate | eauto].
Qed.

Lemma plain_toString v :
  Js.plain v = true -> exists s, ExpressValidator.toString v = Js.Normal s.
Proof.
  intros Hp. destruct v as [ | | b | n | s | [ | first rest ] | props ];
    try (apply plain_toString_shallow; exact Hp).
  apply plain_arr_Forall in Hp. inversion Hp; subst.
  apply plain_toString_shallow. assumption.
Qed.

Lemma plain_own props key v :
  Js.plain (Js.obj props) = true -> Js.own props key = Some v -> Js.plain v = true.
Proof.
  intros Hp. simpl in Hp. apply andb_true_iff in Hp. destruct Hp as [_ Hall].
  induction props as [ | [k x] rest IH ]; simpl; [discriminate | ].
  apply andb_true_iff in Hall. destruct Hall as [Hx Hrest].
  destruct (String.eqb k key).
  - intros [= <-]. exact Hx.
  - apply IH. exact Hrest.
Qed.

Lemma plain_get o key :
  Js.plain o = true -> Js.plain (Js.get o key) = true.
Proof.
  intros Hp. destruct o; try reflexivity. simpl.
  destruct (Js.own props key) eqn:Hown; [ | reflexivity].
  eapply plain_own; eassumption.
Qed.

Lemma plain_at_location req l :
  plain_request req = true -> Js.plain (at_location req l) = true.
Proof.
  unfold plain_request. rewrite forallb_forall. intros H. apply H.
  destruct l; simpl; tauto.
Qed.

(** ** Chains on plain requests *)

Lemma run_standard_plain validator negated message i values :
  Forall (fun v => Js.plain v = true) values ->
  exists errors,
    ExpressValidator.run_standard validator negated message i values = Js.Normal errors.
Proof.
  induction 1 as [ | v rest Hv _ IH ]; simpl.
  - eauto.
  - destruct (plain_toString v Hv) as [s ->]. destruct IH as [errors ->].
    simpl. eauto.
Qed.

Lemma run_item_plain item message req i :
  Js.plain (inst_value i) = true ->
  exists errors, ExpressValidator.run_item item message req i = Js.Normal errors.
Proof.
  intros Hp. destruct item as [v negated | f negated]; simpl; [ | eauto].
  apply run_standard_plain.
  destruct (inst_value i) eqn:Hv; try (constructor; [assumption | constructor]).
  apply plain_arr_Forall. exact Hp.
Qed.

Lemma run_instances_plain item message req data :
  Forall (fun i => Js.plain (inst_value i) = true) data ->
  exists errors, ExpressValidator.run_instances item message req data = Js.Normal errors.
Proof.
  induction 1 as [ | i rest Hi _ IH ]; simpl.
  - eauto.
  - destruct (run_item_plain item message req i Hi) as [here ->].
    destruct IH as [there ->]. simpl. eauto.
Qed.

Lemma run_stack_plain items message req data :
  Forall (fun i => Js.plain (inst_value i) = true) data ->
  exists errors, ExpressValidator.run_stack items message req data = Js.Normal errors.
Proof.
  intros Hd. induction items as [ | item rest IH ]; simpl.
  - eauto.
  - destruct (run_instances_plain item message req data Hd) as [here ->].
    destruct IH as [there ->]. simpl. eauto.
Qed.

Lemma getData_incl instances i :
  In i (ExpressValidator.getData instances) -> In i instances.
Proof.
  unfold ExpressValidator.getData.
  destruct instances as [ | first [ | second rest ] ]; auto.
  destruct (filter _ _) eqn:Hf.
  - intros [<- | []]. left. reflexivity.
  - rewrite <- Hf. intros Hin. apply filter_In in Hin. tauto.
Qed.

Lemma run_plain c req :
  plain_request req = true ->
  exists errors, ExpressValidator.run c req = Js.Normal errors.
Proof.
  intros Hp. unfold ExpressValidator.run. apply run_stack_plain.
  apply Forall_forall. intros i Hin. apply getData_incl in Hin.
  unfold ExpressValidator.selectFields in Hin. apply in_map_iff in Hin.
  destruct Hin as [l [<- _]]. simpl.
  apply plain_get, plain_at_location, Hp.
Qed.

(** ** Requests along a pipeline *)

Lemma same_fields_refl req : same_fields req req.
Proof. intros l. reflexivity. Qed.

Lemma same_fields_trans a b c :
  same_fields a b -> same_fields b c -> same_fields a c.
Proof. intros Hab Hbc l. rewrite Hab. apply Hbc. Qed.

Lemma same_fields_with_context req errors :
  same_fields req (with_context req errors).
Proof. intros []; reflexivity. Qed.

Lemma same_fields_with_user req identity :
  same_fields req (with_user req identity).
Proof. intros []; reflexivity. Qed.

Lemma plain_request_same_fields a b :
  same_fields a b -> plain_request a = plain_request b.
Proof.
  intros H. unfold plain_request, all_locations. cbn [forallb].
  rewrite !H. reflexivity.
Qed.

Lemma validationResult_with_context req errors :
  validationResult (with_context req errors) = validationResult req ++ errors.
Proof.
  unfold validationResult. simpl. rewrite concat_app. simpl.
  rewrite app_nil_r. reflexivity.
Qed.

(** A stack of validation chains that all run to completion hands the
    request on to the handler behind them: each chain runs once, the errors
    it finds are on the request the handler is called with, and the
    handler is called once. *)
Lemma dispatch_chains verify h cs :
  forall req,
    (forall c r, In c cs -> same_fields req r ->
                 exists errors, ExpressValidator.run c r = Js.Normal errors) ->
    exists req',
      result (dispatch (call verify) (map Validation cs ++ [Handler h]) req)
        = Sent (Answer h req')
      /\ handlers_called (dispatch (call verify) (map Validation cs ++ [Handler h]) req)
        = [h]
      /\ chains_run (dispatch (call verify) (map Validation cs ++ [Handler h]) req)
        = cs
      /\ same_fields req req'
      /\ req_user req' = req_user req
      /\ incl (validationResult req) (validationResult req')
      /\ (forall c, In c cs ->
            exists r errors,
              same_fields req r
              /\ ExpressValidator.run c r = Js.Normal errors
              /\ incl errors (validationResult req')).
Proof.
  induction cs as [ | c rest IH ]; intros req Hrun.
  - exists req. simpl. repeat split; auto using same_fields_refl, incl_refl.
    intros c [].
  - destruct (Hrun c req (or_introl eq_refl) (same_fields_refl req)) as [errors Hc].
    destruct (IH (with_context req errors)) as
      [req' (Hres & Hcalled & Hchains & Hsame & Huser & Hincl & Heach)].
    { intros c' r Hin Hr. apply Hrun; [right; exact Hin | ].
      eapply same_fields_trans; [apply same_fields_with_context | exact Hr]. }
    exists req'. simpl. unfold call_Validation. rewrite Hc. simpl.
    rewrite validationResult_with_context in Hincl.
    repeat split.
    + exact Hres.
    + exact Hcalled.
    + unfold chains_run in *. simpl. rewrite Hchains. reflexivity.
    + eapply same_fields_trans; [apply same_fields_with_context | exact Hsame].
    + exact Huser.
    + intros e He. apply Hincl, in_or_app. left. exact He.
    + intros c' [<- | Hin].
      * exists req, errors. split; [apply same_fields_refl | split; [exact Hc | ]].
        intros e He. apply Hincl, in_or_app. right. exact He.
      * destruct (Heach c' Hin) as [r [errs (Hr & Hrun' & Herrs)]].
        exists r, errs. split; [ | split; assumption].
        eapply same_fields_trans; [apply same_fields_with_context | exact Hr].
Qed.

(** Behind a successful authentication the rest of the stack is given the
    request with the identity attached. *)
Lemma dispatch_authenticated verify rest req identity :
  authenticate verify req = Some identity ->
  dispatch (call verify) (UserAuth :: rest) req =
  {| calls := (UserAuth, req) :: calls (dispatch (call verify) rest (with_user req identity));
     result := result (dispatch (call verify) rest (with_user req identity)) |}.
Proof.
  intros Hauth. simpl. unfold call_UserAuth. rewrite Hauth. reflexivity.
Qed.

(** A failed authentication ends the exchange at once. *)
Lemma dispatch_refused verify rest req :
  authenticate verify req = None ->
  dispatch (call verify) (UserAuth :: rest) req =
  {| calls := [(UserAuth, req)]; result := Sent Unauthorized |}.
Proof.
  intros Hauth. simpl. unfold call_UserAuth. rewrite Hauth. reflexivity.
Qed.

(** ** The routes of the table *)

Lemma serve_route verify m p req :
  serve verify m p req =
  match route_of m p with
  | Some r => dispatch (call verify) (Express.stack r) req
  | None => {| calls := []; result := Unhandled |}
  end.
Proof. reflexivity. Qed.

(** Replaces [route_of m p], for a method and path given in full, by the
    route the table registers for them, its chains left as they are written. *)
Ltac find_route :=
  match goal with
  | |- context [route_of ?m ?p] =>
      let r := eval cbv [route_of ProductRouter post patch get put delete register
                         flatten app find matches method_eqb method path chain
                         String.eqb Ascii.eqb Bool.eqb andb] in (route_of m p) in
      change (route_of m p) with r
  end;
  cbv beta iota; cbn [Express.stack].

(** Splits membership in the table into its eight routes. *)
Ltac each_route H :=
  unfold ProductRouter, post, patch, get, put, delete, register in H;
  cbn [app In flatten chain] in H;
  repeat (destruct H as [<- | H]; [ cbn [method path Express.stack] | ]);
  [ .. | destruct H ].

(** C1.  Each of the eight routes of the table has [UserAuth] as the first
    function of its stack, then its validation chains, then its handler; a
    request that fails the authentication is answered by [UserAuth] with
    the unauthorized response, no validation chain is run and no handler is
    called. *)
Theorem UserAuth_is_first_on_every_route :
  forall (verify : string -> option Js.Value) (r : Route Middleware) (req : Request),
    In r ProductRouter ->
    authenticate verify req = None ->
    length ProductRouter = 8%nat
    /\ (exists cs h, Express.stack r = UserAuth :: map Validation cs ++ [Handler h])
    /\ serve verify (method r) (path r) req
       = {| calls := [(UserAuth, req)]; result := Sent Unauthorized |}
    /\ chains_run (serve verify (method r) (path r) req) = []
    /\ handlers_called (serve verify (method r) (path r) req) = [].
Proof.
  intros verify r req Hin Hauth.
  assert (Hserve : serve verify (method r) (path r) req
                   = {| calls := [(UserAuth, req)]; result := Sent Unauthorized |}).
  { each_route Hin; rewrite serve_route; find_route;
      apply dispatch_refused; exact Hauth. }
  split; [reflexivity | ].
  split; [ | split; [exact Hserve | rewrite Hserve; split; reflexivity]].
  each_route Hin.
  all: match goal with
       | |- exists cs h, UserAuth :: ?rest = _ =>
           exists (chains_of rest); eexists; reflexivity
       end.
Qed.

Lemma UserAuth_is_first_on_every_route_witness :
  let r := {| method := GET; path := "/GetProductById";
              Express.stack := [UserAuth; Handler GetProductById] |} in
  let req := Sample.request Sample.without_token (Js.obj []) in
  In r ProductRouter
  /\ authenticate Sample.verify req = None
  /\ serve Sample.verify GET "/GetProductById" req
     = {| calls := [(UserAuth, req)]; result := Sent Unauthorized |}.
Proof.
  cbv zeta.
  assert (Hin : In {| method := GET; path := "/GetProductById";
                      Express.stack := [UserAuth; Handler GetProductById] |}
                   ProductRouter)
    by (do 3 right; left; reflexivity).
  assert (Hauth : authenticate Sample.verify
                    (Sample.request Sample.without_token (Js.obj [])) = None)
    by reflexivity.
  split; [exact Hin | split; [exact Hauth | ]].
  exact (proj1 (proj2 (proj2
           (UserAuth_is_first_on_every_route Sample.verify _ _ Hin Hauth)))).
Defined.

(** An authenticated request to a route whose chains all run to completion
    reaches the handler of the route, with the identity attached and with
    what the chains found. *)
Lemma serve_authenticated verify m p cs h req identity :
  route_of m p =
    Some {| method := m; path := p;
            Express.stack := UserAuth :: map Validation cs ++ [Handler h] |} ->
  authenticate verify req = Some identity ->
  (forall c r, In c cs -> same_fields req r ->
               exists errors, ExpressValidator.run c r = Js.Normal errors) ->
  exists req',
    result (serve verify m p req) = Sent (Answer h req')
    /\ handlers_called (serve verify m p req) = [h]
    /\ chains_run (serve verify m p req) = cs
    /\ same_fields req req'
    /\ req_user req' = identity
    /\ incl (validationResult req) (validationResult req')
    /\ (forall c, In c cs ->
          exists r errors,
            same_fields req r
            /\ ExpressValidator.run c r = Js.Normal errors
            /\ incl errors (validationResult req')).
Proof.
  intros Hroute Hauth Hrun.
  rewrite serve_route, Hroute. cbn [Express.stack].
  rewrite (dispatch_authenticated verify _ req identity Hauth).
  destruct (dispatch_chains verify h cs (with_user req identity)) as
    [req' (Hres & Hcalled & Hchains & Hsame & Huser & Hincl & Heach)].
  { intros c r Hin Hr. apply Hrun; [exact Hin | ].
    eapply same_fields_trans; [apply same_fields_with_user | exact Hr]. }
  exists req'. cbn [result calls].
  split; [exact Hres | ].
  split; [exact Hcalled | ].
  split; [exact Hchains | ].
  split; [eapply same_fields_trans; [apply same_fields_with_user | exact Hsame] | ].
  split; [exact Huser | ].
  split; [exact Hincl | ].
  intros c Hin. destruct (Heach c Hin) as [r [errors (Hr & Hc & Herrors)]].
  exists r, errors. split; [ | split; assumption].
  eapply same_fields_trans; [apply same_fields_with_user | exact Hr].
Qed.

(** ** The images rule *)


(** A length below 3 makes the validator throw its error. *)
Lemma images_short value req n :
  Js.length_of value = Js.Normal (Js.num n) ->
  (n < 3)%Z ->
  AddProduct_images value req
  = Js.Throw (Js.Error "Each product should have at least 3 images").
Proof.
  intros Hlen Hn. unfold AddProduct_images. rewrite Hlen. simpl.
  destruct (Z.ltb_spec n 3); [reflexivity | lia].
Qed.

(** A length of 3 or more makes it return [true]. *)
Lemma images_long value req n :
  Js.length_of value = Js.Normal (Js.num n) ->
  (3 <= n)%Z ->
  AddProduct_images value req = Js.Normal (Js.bool true).
Proof.
  intros Hlen Hn. unfold AddProduct_images. rewrite Hlen. simpl.
  destruct (Z.ltb_spec n 3); [lia | reflexivity].
Qed.

(** So does a value that has no length. *)
Lemma images_no_length value req :
  Js.length_of value = Js.Normal Js.undefined ->
  AddProduct_images value req = Js.Normal (Js.bool true).
Proof.
  intros Hlen. unfold AddProduct_images. rewrite Hlen. reflexivity.
Qed.

(** The chain [body('images').custom(validator)] runs its validator on the
    [images] field of the body, and never lets an exception escape. *)
Lemma run_images validator req :
  ExpressValidator.run (body "images" |> custom validator) req
  = Js.Normal (ExpressValidator.run_custom validator false None req
                 (instance_at req "images" InBody)).
Proof.
  unfold ExpressValidator.run. simpl. rewrite !app_nil_r. reflexivity.
Qed.

Lemma run_images_short req value n :
  Js.get (req_body req) "images" = value ->
  Js.length_of value = Js.Normal (Js.num n) ->
  (n < 3)%Z ->
  ExpressValidator.run (body "images" |> custom AddProduct_images) req
  = Js.Normal [images_error value].
Proof.
  intros Hget Hlen Hn. rewrite run_images.
  unfold ExpressValidator.run_custom, instance_at. cbn [inst_value at_location path_in].
  rewrite Hget, (images_short value req n Hlen Hn). reflexivity.
Qed.

Lemma run_images_long req value n :
  Js.get (req_body req) "images" = value ->
  Js.length_of value = Js.Normal (Js.num n) ->
  (3 <= n)%Z ->
  ExpressValidator.run (body "images" |> custom AddProduct_images) req
  = Js.Normal [].
Proof.
  intros Hget Hlen Hn. rewrite run_images.
  unfold ExpressValidator.run_custom, instance_at. cbn [inst_value at_location path_in].
  rewrite Hget, (images_long value req n Hlen Hn). reflexivity.
Qed.

Lemma route_AddProduct :
  route_of POST "/AddProduct" =
  Some {| method := POST; path := "/AddProduct";
          Express.stack :=
            UserAuth :: map Validation (validators POST "/AddProduct")
                     ++ [Handler AddProduct] |}.
Proof. reflexivity. Qed.

Lemma route_EditProduct :
  route_of PUT "/EditProduct" =
  Some {| method := PUT; path := "/EditProduct";
          Express.stack :=
            UserAuth :: map Validation (validators PUT "/EditProduct")
                     ++ [Handler EditProduct] |}.
Proof. reflexivity. Qed.

Lemma images_chain_of_AddProduct :
  In (body "images" |> custom AddProduct_images) (validators POST "/AddProduct").
Proof. do 7 right. left. reflexivity. Qed.

Lemma images_chain_of_EditProduct :
  In (body "images" |> custom AddProduct_images) (validators PUT "/EditProduct").
Proof. do 8 right. left. reflexivity. Qed.

(** C2, as the code has it.  On [/AddProduct] and [/EditProduct], an
    authenticated request of plain fields whose [images] is an array of
    fewer than 3 entries gets the validation error "Each product should
    have at least 3 images" recorded on it; no function of the stack
    answers for recorded errors, so the handler is called, once, with the
    request that carries the error. *)
Theorem short_images_are_recorded_and_handed_on :
  forall (verify : string -> option Js.Value) (m : Method) (p : string)
         (h : Controller) (req : Request) (identity : Js.Value)
         (items : list Js.Value),
    (m, p, h) = (POST, "/AddProduct", AddProduct)
    \/ (m, p, h) = (PUT, "/EditProduct", EditProduct) ->
    authenticate verify req = Some identity ->
    plain_request req = true ->
    Js.get (req_body req) "images" = Js.arr items ->
    (length items < 3)%nat ->
    exists req',
      result (serve verify m p req) = Sent (Answer h req')
      /\ handlers_called (serve verify m p req) = [h]
      /\ In (images_error (Js.arr items)) (validationResult req')
      /\ req_body req' = req_body req.
Proof.
  intros verify m p h req identity items Hroute Hauth Hplain Himages Hshort.
  assert (Hrun : forall c r, same_fields req r ->
                   exists errors, ExpressValidator.run c r = Js.Normal errors).
  { intros c r Hr. apply run_plain.
    rewrite <- (plain_request_same_fields req r Hr). exact Hplain. }
  assert (Hserved : exists cs,
             In (body "images" |> custom AddProduct_images) cs
             /\ route_of m p =
                Some {| method := m; path := p;
                        Express.stack :=
                          UserAuth :: map Validation cs ++ [Handler h] |}).
  { destruct Hroute as [[= -> -> ->] | [= -> -> ->]].
    - exists (validators POST "/AddProduct").
      split; [exact images_chain_of_AddProduct | exact route_AddProduct].
    - exists (validators PUT "/EditProduct").
      split; [exact images_chain_of_EditProduct | exact route_EditProduct]. }
  destruct Hserved as [cs [Hin Hr]].
  destruct (serve_authenticated verify m p cs h req identity Hr Hauth
              (fun c r _ => Hrun c r))
    as [req' (Hres & Hcalled & _ & Hsame & _ & _ & Heach)].
  exists req'. split; [exact Hres | split; [exact Hcalled | split]].
  - destruct (Heach _ Hin) as [r [errors (Hsr & Hc & Hincl)]].
    apply Hincl.
    rewrite (run_images_short r (Js.arr items) (Z.of_nat (length items))) in Hc.
    + injection Hc as <-. left. reflexivity.
    + change (req_body r) with (at_location r InBody).
      rewrite <- (Hsr InBody). exact Himages.
    + reflexivity.
    + lia.
  - symmetry. exact (Hsame InBody).
Qed.

Lemma short_images_are_recorded_and_handed_on_witness :
  let req := Sample.request Sample.with_token Sample.one_image in
  authenticate Sample.verify req = Some (Js.str "user-1")
  /\ plain_request req = true
  /\ Js.get (req_body req) "images" = Js.arr [Js.str "a.jpg"]
  /\ exists req',
       result (serve Sample.verify POST "/AddProduct" req) = Sent (Answer AddProduct req')
       /\ handlers_called (serve Sample.verify POST "/AddProduct" req) = [AddProduct]
       /\ In (images_error (Js.arr [Js.str "a.jpg"])) (validationResult req')
       /\ req_body req' = req_body req.
Proof.
  cbv zeta.
  split; [reflexivity | split; [reflexivity | split; [reflexivity | ]]].
  apply (short_images_are_recorded_and_handed_on
           Sample.verify POST "/AddProduct" AddProduct
           (Sample.request Sample.with_token Sample.one_image)
           (Js.str "user-1") [Js.str "a.jpg"]).
  - left. reflexivity.
  - reflexivity.
  - reflexivity.
  - reflexivity.
  - simpl. lia.
Defined.

(** C2, as the spec has it, fails: an authenticated request to
    [/AddProduct] with one image is not rejected before the handler; the
    handler is called, with the error on the request. *)
Lemma short_images_reach_the_handler :
  handlers_called
    (serve Sample.verify POST "/AddProduct"
       (Sample.request Sample.with_token Sample.one_image))
  = [AddProduct]
  /\ messages_handed_on
       (serve Sample.verify POST "/AddProduct"
          (Sample.request Sample.with_token Sample.one_image))
     = Some ["Each product should have at least 3 images"].
Proof. split; vm_compute; reflexivity. Qed.

(** ** Rules and exceptions *)

(** The chain of [images], wherever the table declares one, catches what
    its validator throws. *)
Lemma images_chain_completes r c req l value :
  In r ProductRouter ->
  In c (chains_of (Express.stack r)) ->
  field c = "images" ->
  exists errors, validate c req l value = Js.Normal errors.
Proof.
  intros Hr Hc Hfield.
  each_route Hr; cbn [chains_of In] in Hc;
    repeat (destruct Hc as [<- | Hc]; [ try discriminate Hfield | ]);
    try (destruct Hc);
    eexists; unfold validate; simpl; reflexivity.
Qed.

(** C3, as the code has it.  A standard rule of the table (non-empty,
    numeric, boolean) evaluates on a plain field value without an
    exception.  The custom validator of [images] returns [true] for a value
    whose length is a number that is at least 3 and for a value without a
    length; for a value whose length is a number below 3 it throws the error
    "Each product should have at least 3 images", which is how it reports
    the failure: the chain catches what its validator throws, so no
    exception escapes the rule. *)
Theorem rules_and_their_exceptions :
  forall (r : Route Middleware) (c : ValidationChain) (req : Request)
         (l : Location) (value : Js.Value) (n : Z),
    In r ProductRouter ->
    In c (chains_of (Express.stack r)) ->
    (Js.plain value = true ->
       exists errors, validate c req l value = Js.Normal errors)
    /\ (field c = "images" ->
          exists errors, validate c req l value = Js.Normal errors)
    /\ (Js.length_of value = Js.Normal (Js.num n) -> (n < 3)%Z ->
          AddProduct_images value req
            = Js.Throw (Js.Error "Each product should have at least 3 images")
          /\ EditProduct_images value req
            = Js.Throw (Js.Error "Each product should have at least 3 images"))
    /\ (Js.length_of value = Js.Normal (Js.num n) -> (3 <= n)%Z ->
          AddProduct_images value req = Js.Normal (Js.bool true)
          /\ EditProduct_images value req = Js.Normal (Js.bool true))
    /\ (Js.length_of value = Js.Normal Js.undefined ->
          AddProduct_images value req = Js.Normal (Js.bool true)
          /\ EditProduct_images value req = Js.Normal (Js.bool true)).
Proof.
  intros r c req l value n Hr Hc.
  split; [ | split; [ | split; [ | split]]].
  - intros Hplain. unfold validate. apply run_stack_plain.
    constructor; [exact Hplain | constructor].
  - intros Hfield. eapply images_chain_completes; eassumption.
  - intros Hlen Hn.
    split; exact (images_short value req n Hlen Hn).
  - intros Hlen Hn.
    split; exact (images_long value req n Hlen Hn).
  - intros Hlen.
    split; exact (images_no_length value req Hlen).
Qed.

Lemma rules_and_their_exceptions_witness :
  let r := {| method := DELETE; path := "/DeleteProduct";
              Express.stack :=
                [ UserAuth;
                  Validation (check "productId" "Product id is required"
                              |> not_ |> isEmpty);
                  Handler DeleteProduct ] |} in
  let c := check "productId" "Product id is required" |> not_ |> isEmpty in
  let req := Sample.request Sample.with_token Sample.bike in
  In r ProductRouter
  /\ In c (chains_of (Express.stack r))
  /\ Js.length_of (Js.arr [Js.str "a.jpg"]) = Js.Normal (Js.num 1)
  /\ (1 < 3)%Z
  /\ AddProduct_images (Js.arr [Js.str "a.jpg"]) req
     = Js.Throw (Js.Error "Each product should have at least 3 images").
Proof.
  cbv zeta.
  assert (Hr : In {| method := DELETE; path := "/DeleteProduct";
                     Express.stack :=
                       [ UserAuth;
                         Validation (check "productId" "Product id is required"
                                     |> not_ |> isEmpty);
                         Handler DeleteProduct ] |} ProductRouter)
    by (do 7 right; left; reflexivity).
  assert (Hc : In (check "productId" "Product id is required" |> not_ |> isEmpty)
                 (chains_of [ UserAuth;
                              Validation (check "productId" "Product id is required"
                                          |> not_ |> isEmpty);
                              Handler DeleteProduct ]))
    by (left; reflexivity).
  assert (Hn : (1 < 3)%Z) by lia.
  split; [exact Hr | split; [exact Hc | split; [reflexivity | split; [exact Hn | ]]]].
  exact (proj1 (proj1 (proj2 (proj2
           (rules_and_their_exceptions _ _
              (Sample.request Sample.with_token Sample.bike) InBody
              (Js.arr [Js.str "a.jpg"]) 1 Hr Hc))) eq_refl Hn)).
Defined.

(** C3, as the spec has it, fails: the validator of [images] throws on an
    empty array, and on the [undefined] it is given when the body has no
    [images]. *)
Lemma images_validator_throws :
  AddProduct_images (Js.arr []) (Sample.request Sample.with_token (Js.obj []))
  = Js.Throw (Js.Error "Each product should have at least 3 images")
  /\ AddProduct_images
       (Js.get (req_body (Sample.request Sample.with_token (Js.obj []))) "images")
       (Sample.request Sample.with_token (Js.obj []))
     = Js.Throw (Js.TypeError "Cannot read properties of undefined (reading 'length')").
Proof. split; reflexivity. Qed.

(** ** The declarations, route by route *)

(** A chain of one standard validator, applied to a string. *)
Lemma validate_standard f locs mesg v negated req l s :
  validate {| field := f; locations := locs; message := Some mesg;
              ExpressValidator.stack := [StandardValidation v negated];
              negateNext := false |} req l (Js.str s)
  = Js.Normal
      (if (if negated then standard v s else negb (standard v s))
       then [{| value := Js.str s; msg := mesg;
                param := path_in l f; location := l |}]
       else []).
Proof.
  unfold validate. simpl.
  destruct (if negated then standard v s else negb (standard v s)); reflexivity.
Qed.

(** C4.  [POST /AddProduct] declares, in this order, productName non-empty,
    price numeric, forExchange boolean, description, categoryId, cityId and
    conditionId non-empty, and the custom rule of images, which accepts an
    array exactly when it has 3 entries or more.  The price rule records
    its error for a string exactly when the string is not numeric, as
    "abc" is not; the forExchange rule for a string exactly when it is not
    one of the booleans, as "notabool" is not. *)
Theorem AddProduct_rules :
  stack_of POST "/AddProduct"
  = UserAuth :: map Validation (validators POST "/AddProduct") ++ [Handler AddProduct]
  /\ map rule_of (validators POST "/AddProduct")
     = [ rule "productName" NonEmpty "Product name is required";
         rule "price" Numeric "Price should be a number";
         rule "forExchange" Boolean "ForExchange should be boolean";
         rule "description" NonEmpty "Description is required";
         rule "categoryId" NonEmpty "Category should be a number";
         rule "cityId" NonEmpty "City should be a number";
         rule "conditionId" NonEmpty "Condition should be a number";
         Some {| fieldName := "images"; predicate := Custom; errorMessage := None |} ]
  /\ (forall (req : Request) (l : Location) (s : string),
        option_map (fun c => validate c req l (Js.str s))
          (chain_of POST "/AddProduct" "price")
        = Some (Js.Normal
                  (if Validator.isNumeric s then []
                   else [{| value := Js.str s; msg := "Price should be a number";
                            param := path_in l "price"; location := l |}])))
  /\ Validator.isNumeric "abc" = false
  /\ (forall (req : Request) (l : Location) (s : string),
        option_map (fun c => validate c req l (Js.str s))
          (chain_of POST "/AddProduct" "forExchange")
        = Some (Js.Normal
                  (if Validator.isBoolean s then []
                   else [{| value := Js.str s; msg := "ForExchange should be boolean";
                            param := path_in l "forExchange"; location := l |}])))
  /\ Validator.isBoolean "notabool" = false
  /\ (forall (req : Request) (items : list Js.Value),
        option_map (fun c => validate c req InBody (Js.arr items))
          (chain_of POST "/AddProduct" "images")
        = Some (Js.Normal
                  (if (length items <? 3)%nat then [images_error (Js.arr items)]
                   else []))).
Proof.
  split; [reflexivity | ].
  split; [reflexivity | ].
  split.
  { intros req l s.
    etransitivity;
      [exact (f_equal Some (validate_standard "price" _ _ IsNumeric false req l s)) | ].
    cbn [standard]. destruct (Validator.isNumeric s); reflexivity. }
  split; [reflexivity | ].
  split.
  { intros req l s.
    etransitivity;
      [exact (f_equal Some (validate_standard "forExchange" _ _ IsBoolean false req l s)) | ].
    cbn [standard]. destruct (Validator.isBoolean s); reflexivity. }
  split; [reflexivity | ].
  intros req items.
  change (option_map (fun c => validate c req InBody (Js.arr items))
            (chain_of POST "/AddProduct" "images"))
    with (Some (validate (body "images" |> custom AddProduct_images)
                  req InBody (Js.arr items))).
  f_equal. unfold validate. simpl.
  unfold ExpressValidator.run_custom, AddProduct_images. simpl.
  destruct (Nat.ltb_spec (length items) 3) as [Hlt | Hge].
  - destruct (Z.ltb_spec (Z.of_nat (length items)) 3); [reflexivity | lia].
  - destruct (Z.ltb_spec (Z.of_nat (length items)) 3); [lia | reflexivity].
Qed.

(** C5.  The validation chains of [PUT /EditProduct] are the rule
    "productId non-empty" followed by the chains of [POST /AddProduct]:
    the table's pipeline is the specified one, rule for rule, and on every
    request each chain behind the first finds what the chain of AddProduct
    in the same position finds. *)
Theorem EditProduct_is_productId_then_AddProduct :
  validators PUT "/EditProduct" = EditProduct_as_specified
  /\ stack_of PUT "/EditProduct"
     = UserAuth :: map Validation (validators PUT "/EditProduct")
                ++ [Handler EditProduct]
  /\ map rule_of (validators PUT "/EditProduct")
     = rule "productId" NonEmpty "Product id is required"
         :: map rule_of (validators POST "/AddProduct")
  /\ (forall req : Request,
        map (fun c => ExpressValidator.run c req) (tl (validators PUT "/EditProduct"))
        = map (fun c => ExpressValidator.run c req) (validators POST "/AddProduct"))
  /\ (forall (req : Request) (value : Js.Value),
        EditProduct_images value req = AddProduct_images value req).
Proof.
  split; [reflexivity | ].
  split; [reflexivity | ].
  split; [reflexivity | ].
  split; intros; reflexivity.
Qed.

(** C8.  The three listing routes declare no validation rule: the stack of
    each is [UserAuth] and the handler, so a request is either refused by
    [UserAuth] or handed, with the identity attached, to the handler.  The
    stacks of GetSellingProducts and GetExchangeProducts differ in the
    handler only. *)
Theorem listing_routes_have_no_rules :
  stack_of GET "/GetProductById" = [UserAuth; Handler GetProductById]
  /\ stack_of GET "/GetSellingProducts" = [UserAuth; Handler GetSellingProducts]
  /\ stack_of GET "/GetExchangeProducts" = [UserAuth; Handler GetExchangeProducts]
  /\ validators GET "/GetProductById" = []
  /\ validators GET "/GetSellingProducts" = []
  /\ validators GET "/GetExchangeProducts" = []
  /\ map (fun m => match m with
                   | Handler _ => Handler GetExchangeProducts
                   | _ => m
                   end) (stack_of GET "/GetSellingProducts")
     = stack_of GET "/GetExchangeProducts"
  /\ (forall (verify : string -> option Js.Value) (h : Controller) (p : string)
             (req : Request),
        In (p, h) [ ("/GetProductById", GetProductById);
                    ("/GetSellingProducts", GetSellingProducts);
                    ("/GetExchangeProducts", GetExchangeProducts) ] ->
        serve verify GET p req
        = match authenticate verify req with
          | Some identity =>
              {| calls := [ (UserAuth, req); (Handler h, with_user req identity) ];
                 result := Sent (Answer h (with_user req identity)) |}
          | None => {| calls := [ (UserAuth, req) ]; result := Sent Unauthorized |}
          end).
Proof.
  repeat (split; [reflexivity | ]).
  intros verify h p req Hin.
  assert (Hstack : serve verify GET p req
                   = dispatch (call verify) [UserAuth; Handler h] req).
  { simpl in Hin.
    destruct Hin as [[= <- <-] | [[= <- <-] | [[= <- <-] | []]]]; reflexivity. }
  rewrite Hstack. simpl. unfold call_UserAuth.
  destruct (authenticate verify req); reflexivity.
Qed.

Lemma listing_routes_have_no_rules_witness :
  let req := Sample.request Sample.with_token (Js.obj []) in
  serve Sample.verify GET "/GetSellingProducts" req
  = {| calls := [ (UserAuth, req);
                  (Handler GetSellingProducts, with_user req (Js.str "user-1")) ];
       result := Sent (Answer GetSellingProducts (with_user req (Js.str "user-1"))) |}.
Proof.
  cbv zeta.
  refine (proj2 (proj2 (proj2 (proj2 (proj2 (proj2 (proj2
            listing_routes_have_no_rules))))))
            Sample.verify GetSellingProducts "/GetSellingProducts"
            (Sample.request Sample.with_token (Js.obj [])) _).
  right. left. reflexivity.
Defined.

(** ** The productId rule *)

(** The cases of a field value that is [undefined] or the empty string. *)
Ltac missing_or_empty_cases v :=
  destruct v as [ | | ? | ? | [ | ? ? ] | ? | ? ];
  cbn [andb String.eqb];
  try (let H := fresh in intros H; discriminate H).

(** A productId that is nowhere, or empty where it is, fails the rule. *)
Lemma run_productId_missing req :
  missing_or_empty req "productId" = true ->
  exists errors,
    ExpressValidator.run (check "productId" "Product id is required" |> not_ |> isEmpty) req
    = Js.Normal errors
    /\ errors <> []
    /\ Forall (fun e => msg e = "Product id is required") errors.
Proof.
  unfold missing_or_empty, all_locations, field_at, ExpressValidator.run.
  cbn [forallb ExpressValidator.field ExpressValidator.locations check not_ isEmpty add_item
       ExpressValidator.stack ExpressValidator.message app negateNext
       selectFields map].
  unfold instance_at. cbn [inst_value at_location path_in].
  change (toLowerCase "productId") with "productid".
  generalize (Js.get (req_body req) "productId") (Js.get (req_cookies req) "productId")
             (Js.get (req_headers req) "productid") (Js.get (req_params req) "productId")
             (Js.get (req_query req) "productId").
  intros b c h p q.
  missing_or_empty_cases b; missing_or_empty_cases c; missing_or_empty_cases h;
    missing_or_empty_cases p; missing_or_empty_cases q.
  all: intros _; eexists; split; [reflexivity | split; [discriminate | repeat constructor]].
Qed.

(** C6, as the code has it.  On [/LikeProduct], [/AddProductToCart] and
    [/DeleteProduct] the only rule is "productId non-empty".  An
    authenticated request whose productId is missing or empty gets the
    validation error "Product id is required" recorded on it; no function
    of the stack answers for recorded errors, so the handler is called,
    once, with the request that carries the error. *)
Theorem missing_productId_is_recorded_and_handed_on :
  forall (verify : string -> option Js.Value) (m : Method) (p : string)
         (h : Controller) (req : Request) (identity : Js.Value),
    In (m, p, h) [ (PATCH, "/LikeProduct", LikeProduct);
                   (PATCH, "/AddProductToCart", AddProductToCart);
                   (DELETE, "/DeleteProduct", DeleteProduct) ] ->
    authenticate verify req = Some identity ->
    missing_or_empty req "productId" = true ->
    map rule_of (validators m p)
      = [ rule "productId" NonEmpty "Product id is required" ]
    /\ exists errors,
         errors <> []
         /\ Forall (fun e => msg e = "Product id is required") errors
         /\ result (serve verify m p req)
            = Sent (Answer h (with_context (with_user req identity) errors))
         /\ handlers_called (serve verify m p req) = [h].
Proof.
  intros verify m p h req identity Hin Hauth Hmissing.
  assert (Hroute :
      map rule_of (validators m p)
        = [ rule "productId" NonEmpty "Product id is required" ]
      /\ serve verify m p req
         = dispatch (call verify)
             [ UserAuth;
               Validation (check "productId" "Product id is required"
                           |> not_ |> isEmpty);
               Handler h ] req).
  { simpl in Hin.
    destruct Hin as [[= <- <- <-] | [[= <- <- <-] | [[= <- <- <-] | []]]];
      split; reflexivity. }
  destruct Hroute as [Hrules Hserve]. split; [exact Hrules | ].
  destruct (run_productId_missing (with_user req identity) Hmissing)
    as [errors (Hrun & Hsome & Hmsg)].
  exists errors. rewrite Hserve, (dispatch_authenticated verify _ req identity Hauth).
  cbn [result calls dispatch call]. unfold call_Validation. rewrite Hrun.
  repeat split; assumption || reflexivity.
Qed.

Lemma missing_productId_is_recorded_and_handed_on_witness :
  let req := Sample.request Sample.with_token (Js.obj []) in
  authenticate Sample.verify req = Some (Js.str "user-1")
  /\ missing_or_empty req "productId" = true
  /\ exists errors,
       errors <> []
       /\ Forall (fun e => msg e = "Product id is required") errors
       /\ result (serve Sample.verify DELETE "/DeleteProduct" req)
          = Sent (Answer DeleteProduct
                    (with_context (with_user req (Js.str "user-1")) errors))
       /\ handlers_called (serve Sample.verify DELETE "/DeleteProduct" req)
          = [DeleteProduct].
Proof.
  cbv zeta.
  split; [reflexivity | split; [reflexivity | ]].
  refine (proj2 (missing_productId_is_recorded_and_handed_on
                   Sample.verify DELETE "/DeleteProduct" DeleteProduct
                   (Sample.request Sample.with_token (Js.obj []))
                   (Js.str "user-1") _ _ _)).
  - do 2 right. left. reflexivity.
  - reflexivity.
  - reflexivity.
Defined.

(** C6, as the spec has it, fails: an authenticated request to
    [/LikeProduct] without a productId is not rejected before the handler;
    the handler is called, with the error on the request. *)
Lemma missing_productId_reaches_the_handler :
  handlers_called
    (serve Sample.verify PATCH "/LikeProduct"
       (Sample.request Sample.with_token (Js.obj [])))
  = [LikeProduct]
  /\ messages_handed_on
       (serve Sample.verify PATCH "/LikeProduct"
          (Sample.request Sample.with_token (Js.obj [])))
     = Some ["Product id is required"].
Proof. split; vm_compute; reflexivity. Qed.

(** ** A valid product *)

(** A field that only the body has is validated as the body has it. *)
Lemma run_check_in_body_only f mesg items req v :
  absent_outside_body req f = true ->
  Js.get (req_body req) f = v ->
  is_defined v = true ->
  ExpressValidator.run
    {| field := f; locations := [InBody; InCookies; InHeaders; InParams; InQuery];
       message := mesg; ExpressValidator.stack := items; negateNext := false |} req
  = validate
      {| field := f; locations := [InBody; InCookies; InHeaders; InParams; InQuery];
         message := mesg; ExpressValidator.stack := items; negateNext := false |}
      req InBody v.
Proof.
  unfold absent_outside_body, field_at, ExpressValidator.run, validate.
  cbn [forallb ExpressValidator.field ExpressValidator.locations
       ExpressValidator.stack ExpressValidator.message selectFields map].
  unfold instance_at. cbn [inst_value at_location path_in].
  intros Habsent <- Hdefined.
  repeat (apply andb_true_iff in Habsent; destruct Habsent as [?H Habsent]).
  unfold getData. cbn [filter inst_value].
  repeat match goal with
         | H : negb (is_defined ?v) = true |- _ =>
             apply negb_true_iff in H; rewrite H; clear H
         end.
  rewrite Hdefined. reflexivity.
Qed.

(** A chain that finds nothing hands the request on with an empty context. *)
Lemma dispatch_valid verify c rest req :
  ExpressValidator.run c req = Js.Normal [] ->
  dispatch (call verify) (Validation c :: rest) req
  = {| calls := (Validation c, req)
                  :: calls (dispatch (call verify) rest (with_context req []));
       result := result (dispatch (call verify) rest (with_context req [])) |}.
Proof. intros Hrun. simpl. unfold call_Validation. rewrite Hrun. reflexivity. Qed.

(** Solves [run c r = Normal []] for a [check] chain of the table, on a
    request whose body is given by [Hbody]. *)
Ltac valid_in_body Hbody :=
  match goal with
  | |- ExpressValidator.run ?c ?r = _ =>
      let f := eval cbv in (field c) in
      etransitivity;
      [ refine (run_check_in_body_only f _ _ r _ _ _ _);
        [ match goal with H : absent_outside_body _ _ = true |- _ => exact H end
        | cbn [req_body with_context with_user]; rewrite Hbody; reflexivity
        | reflexivity ]
      | reflexivity ]
  end.

(** C7.  A [POST /AddProduct] with a valid token whose body is
    [{productName: "Bike", price: "100", forExchange: "false",
    description: "Used bike", categoryId: "1", cityId: "1",
    conditionId: "1", images: ["a.jpg", "b.jpg", "c.jpg"]}], the fields
    being nowhere else in the request, passes every chain of the route
    (each of the 8 runs and finds nothing) and the handler AddProduct is
    called exactly once, with the parsed body. *)
Theorem bike_is_valid_and_handled_once :
  forall (verify : string -> option Js.Value) (req : Request) (identity : Js.Value),
    authenticate verify req = Some identity ->
    req_body req = Sample.bike ->
    forallb (absent_outside_body req)
      ["productName"; "price"; "forExchange"; "description";
       "categoryId"; "cityId"; "conditionId"] = true ->
    exists req',
      result (serve verify POST "/AddProduct" req) = Sent (Answer AddProduct req')
      /\ handlers_called (serve verify POST "/AddProduct" req) = [AddProduct]
      /\ chains_run (serve verify POST "/AddProduct" req) = validators POST "/AddProduct"
      /\ req_body req' = Sample.bike
      /\ req_user req' = identity
      /\ req_contexts req' = req_contexts req ++ repeat [] 8.
Proof.
  intros verify req identity Hauth Hbody Habsent.
  cbn [forallb] in Habsent.
  repeat (apply andb_true_iff in Habsent; destruct Habsent as [?H Habsent]).
  rewrite serve_route. find_route.
  rewrite (dispatch_authenticated verify _ req identity Hauth).
  cbn [result calls].
  repeat (rewrite dispatch_valid by valid_in_body Hbody).
  rewrite dispatch_valid
    by (apply (run_images_long _ (Js.get Sample.bike "images") 3);
        [cbn [req_body with_context with_user]; rewrite Hbody | | ]; reflexivity).
  eexists. cbn [dispatch call call_Handler result calls].
  split; [reflexivity | ].
  split; [reflexivity | ].
  split; [reflexivity | ].
  split; [exact Hbody | ].
  split; [reflexivity | ].
  cbn [req_contexts with_context with_user repeat]. rewrite <- !app_assoc. reflexivity.
Qed.

Lemma bike_is_valid_and_handled_once_witness :
  let req := Sample.request Sample.with_token Sample.bike in
  authenticate Sample.verify req = Some (Js.str "user-1")
  /\ req_body req = Sample.bike
  /\ exists req',
       result (serve Sample.verify POST "/AddProduct" req) = Sent (Answer AddProduct req')
       /\ handlers_called (serve Sample.verify POST "/AddProduct" req) = [AddProduct]
       /\ chains_run (serve Sample.verify POST "/AddProduct" req)
          = validators POST "/AddProduct"
       /\ req_body req' = Sample.bike
       /\ req_user req' = Js.str "user-1"
       /\ req_contexts req' = req_contexts req ++ repeat [] 8.
Proof.
  cbv zeta.
  split; [reflexivity | split; [reflexivity | ]].
  apply (bike_is_valid_and_handled_once Sample.verify
           (Sample.request Sample.with_token Sample.bike) (Js.str "user-1"));
    reflexivity.
Defined.

(** ** What the rules do not test *)

(** C9.  On [/AddProduct] and [/EditProduct] the rules of categoryId, cityId
    and conditionId are "non-empty" rules whose messages say "should be a
    number": the chain of each finds nothing wrong with any non-empty
    string, numeric or not. *)
Theorem id_rules_accept_any_non_empty_string :
  forall (m : Method) (p f s : string) (req : Request) (l : Location),
    In (m, p) [ (POST, "/AddProduct"); (PUT, "/EditProduct") ] ->
    In f [ "categoryId"; "cityId"; "conditionId" ] ->
    s <> "" ->
    exists c mesg,
      chain_of m p f = Some c
      /\ rule_of c = rule f NonEmpty mesg
      /\ In mesg [ "Category should be a number";
                   "City should be a number";
                   "Condition should be a number" ]
      /\ validate c req l (Js.str s) = Js.Normal [].
Proof.
  intros m p f s req l Hroute Hfield Hs.
  assert (Hnonempty : Validator.isEmpty s = false)
    by (destruct s; [contradiction | reflexivity]).
  simpl in Hroute, Hfield.
  destruct Hroute as [[= <- <-] | [[= <- <-] | []]];
    destruct Hfield as [<- | [<- | [<- | []]]];
    eexists; eexists;
    (split; [reflexivity | split; [reflexivity | split; [simpl; tauto | ]]]);
    (etransitivity; [exact (validate_standard _ _ _ IsEmpty true req l s) | ]);
    cbn [standard]; rewrite Hnonempty; reflexivity.
Qed.

Lemma id_rules_accept_any_non_empty_string_witness :
  "abc" <> ""
  /\ Validator.isNumeric "abc" = false
  /\ exists c mesg,
       chain_of POST "/AddProduct" "categoryId" = Some c
       /\ rule_of c = rule "categoryId" NonEmpty mesg
       /\ In mesg [ "Category should be a number";
                    "City should be a number";
                    "Condition should be a number" ]
       /\ validate c (Sample.request Sample.with_token (Js.obj [])) InBody (Js.str "abc")
          = Js.Normal [].
Proof.
  assert (Hs : "abc" <> "") by discriminate.
  split; [exact Hs | split; [reflexivity | ]].
  apply (id_rules_accept_any_non_empty_string POST "/AddProduct" "categoryId" "abc"
           (Sample.request Sample.with_token (Js.obj [])) InBody).
  - left. reflexivity.
  - left. reflexivity.
  - exact Hs.
Defined.

(** C10.  On [/AddProduct] and [/EditProduct] the rule of images is the
    custom one, and its chain finds nothing wrong with any value of the
    body whose length is a number that is at least 3; a string has its
    number of characters for length, so a string of 3 characters or more
    passes as an array of 3 entries or more does. *)
Theorem images_rule_tests_the_length_only :
  forall (m : Method) (p : string) (req : Request) (value : Js.Value) (n : Z),
    In (m, p) [ (POST, "/AddProduct"); (PUT, "/EditProduct") ] ->
    Js.get (req_body req) "images" = value ->
    Js.length_of value = Js.Normal (Js.num n) ->
    (3 <= n)%Z ->
    (exists c,
       chain_of m p "images" = Some c
       /\ rule_of c = Some {| fieldName := "images"; predicate := Custom;
                              errorMessage := None |}
       /\ ExpressValidator.run c req = Js.Normal [])
    /\ (forall s : string,
          Js.length_of (Js.str s) = Js.Normal (Js.num (Z.of_nat (String.length s))))
    /\ (forall items : list Js.Value,
          Js.length_of (Js.arr items) = Js.Normal (Js.num (Z.of_nat (length items)))).
Proof.
  intros m p req value n Hroute Hget Hlen Hn.
  split; [ | split; intros; reflexivity].
  exists (body "images" |> custom AddProduct_images).
  simpl in Hroute.
  destruct Hroute as [[= <- <-] | [[= <- <-] | []]];
    (split; [reflexivity | split; [reflexivity | ]]);
    exact (run_images_long req value n Hget Hlen Hn).
Qed.

Lemma images_rule_tests_the_length_only_witness :
  let req := Sample.request Sample.with_token (Sample.product (Js.str "abc")) in
  Js.get (req_body req) "images" = Js.str "abc"
  /\ Js.length_of (Js.str "abc") = Js.Normal (Js.num 3)
  /\ (3 <= 3)%Z
  /\ exists c,
       chain_of PUT "/EditProduct" "images" = Some c
       /\ rule_of c = Some {| fieldName := "images"; predicate := Custom;
                              errorMessage := None |}
       /\ ExpressValidator.run c req = Js.Normal [].
Proof.
  cbv zeta.
  assert (Hn : (3 <= 3)%Z) by lia.
  split; [reflexivity | split; [reflexivity | split; [exact Hn | ]]].
  refine (proj1 (images_rule_tests_the_length_only PUT "/EditProduct"
                   (Sample.request Sample.with_token (Sample.product (Js.str "abc")))
                   (Js.str "abc") 3 _ eq_refl eq_refl Hn)).
  right. left. reflexivity.
Defined.

(* ------------------------------------------------------------------ *)
(** * Further properties of the table *)

(** ** Routing *)

(** X1.  No registration shadows another: the eight paths are pairwise
    distinct, and every route of the table is the one a request for its own
    method and path is routed to. *)
Theorem every_route_serves_its_own_path :
  forall r : Route Middleware,
    In r ProductRouter ->
    route_of (method r) (path r) = Some r
    /\ NoDup (map (@path Middleware) ProductRouter).
Proof.
  intros r Hin. split.
  - each_route Hin; reflexivity.
  - unfold ProductRouter, post, patch, get, put, delete, register.
    cbn [app map path].
    repeat (constructor; [cbn [In]; intuition discriminate | ]). constructor.
Qed.

Lemma every_route_serves_its_own_path_witness :
  let r := {| method := GET; path := "/GetProductById";
              Express.stack := [UserAuth; Handler GetProductById] |} in
  In r ProductRouter /\ route_of GET "/GetProductById" = Some r.
Proof.
  cbv zeta.
  assert (Hin : In {| method := GET; path := "/GetProductById";
                      Express.stack := [UserAuth; Handler GetProductById] |}
                   ProductRouter)
    by (do 3 right; left; reflexivity).
  split; [exact Hin | ].
  exact (proj1 (every_route_serves_its_own_path _ Hin)).
Defined.

(** X2.  A path of the table asked for with another method than the one it
    is registered with is not handled by the router: no function of any
    stack is called, the authentication middleware included. *)
Theorem other_methods_are_not_routed :
  forall (verify : string -> option Js.Value) (r : Route Middleware)
         (m : Method) (req : Request),
    In r ProductRouter ->
    m <> method r ->
    serve verify m (path r) req = {| calls := []; result := Unhandled |}.
Proof.
  intros verify r m req Hin Hm.
  each_route Hin; cbn [method] in Hm; destruct m; try contradiction; reflexivity.
Qed.

Lemma other_methods_are_not_routed_witness :
  let r := {| method := GET; path := "/GetProductById";
              Express.stack := [UserAuth; Handler GetProductById] |} in
  In r ProductRouter
  /\ POST <> GET
  /\ serve Sample.verify POST "/GetProductById"
       (Sample.request Sample.with_token Sample.bike)
     = {| calls := []; result := Unhandled |}.
Proof.
  cbv zeta.
  assert (Hin : In {| method := GET; path := "/GetProductById";
                      Express.stack := [UserAuth; Handler GetProductById] |}
                   ProductRouter)
    by (do 3 right; left; reflexivity).
  assert (Hm : POST <> GET) by discriminate.
  split; [exact Hin | split; [exact Hm | ]].
  exact (other_methods_are_not_routed Sample.verify _ POST
           (Sample.request Sample.with_token Sample.bike) Hin Hm).
Defined.

(** ** The chains of the table *)

(** A chain of the table is one standard validator on a field looked for in
    every location, under a message of its own, or the custom chain of
    [images]. *)
Lemma table_chains r c :
  In r ProductRouter ->
  In c (chains_of (Express.stack r)) ->
  (exists f mesg v negated,
      c = {| field := f; locations := all_locations; message := Some mesg;
             ExpressValidator.stack := [StandardValidation v negated];
             negateNext := false |}
      /\ f <> "images"
      /\ In (v, negated) [(IsEmpty, true); (IsNumeric, false); (IsBoolean, false)])
  \/ c = (body "images" |> custom AddProduct_images).
Proof.
  intros Hr Hc.
  each_route Hr; cbn [chains_of In] in Hc;
    repeat (destruct Hc as [<- | Hc];
            [ first [ right; reflexivity
                    | left; do 4 eexists;
                      split; [reflexivity | split; [discriminate | cbn [In]; tauto]] ] | ]);
    destruct Hc.
Qed.

(** A chain of one standard validator, applied to a string, whatever the
    rest of the chain is. *)
Lemma validate_one_standard c v negated req l s :
  ExpressValidator.stack c = [StandardValidation v negated] ->
  validate c req l (Js.str s)
  = Js.Normal
      (if (if negated then standard v s else negb (standard v s))
       then [{| value := Js.str s; msg := message_or_default (message c);
                param := path_in l (field c); location := l |}]
       else []).
Proof.
  intros Hstack. unfold validate. rewrite Hstack. simpl.
  destruct (if negated then standard v s else negb (standard v s)); reflexivity.
Qed.

(** What [rule_of] reads is what the chain is made of. *)
Lemma rule_of_standard c f p mesg :
  rule_of c = rule f p mesg ->
  p <> Custom ->
  field c = f
  /\ message c = Some mesg
  /\ exists v negated,
       ExpressValidator.stack c = [StandardValidation v negated]
       /\ (forall s,
             (if negated then standard v s else negb (standard v s))
             = negb match p with
                    | NonEmpty => negb (Validator.isEmpty s)
                    | Numeric => Validator.isNumeric s
                    | Boolean => Validator.isBoolean s
                    | Custom => true
                    end).
Proof.
  unfold rule_of, rule, predicate_of. intros H Hp.
  destruct (ExpressValidator.stack c) as [ | item [ | ? ? ] ] eqn:Hstack;
    [ discriminate H | | destruct item as [[] [] | ? []]; discriminate H ].
  destruct item as [v negated | g negated].
  - destruct v, negated; cbn in H; try discriminate H;
      injection H as Hf Hpred Hm; subst f p;
      (split; [reflexivity | split; [exact Hm | ]]);
      do 2 eexists; (split; [reflexivity | ]); intros s; cbn [standard];
      try reflexivity.
    rewrite negb_involutive. reflexivity.
  - destruct negated; cbn in H; try discriminate H.
    injection H as Hf Hpred Hm. subst p. contradiction.
Qed.

(** A standard rule of the table, applied to a string: it records its
    error exactly when the predicate it is read as rejects the string. *)
Lemma validate_rule c f p mesg req l s :
  rule_of c = rule f p mesg ->
  p <> Custom ->
  validate c req l (Js.str s)
  = Js.Normal
      (if match p with
          | NonEmpty => negb (Validator.isEmpty s)
          | Numeric => Validator.isNumeric s
          | Boolean => Validator.isBoolean s
          | Custom => true
          end
       then []
       else [{| value := Js.str s; msg := mesg;
                param := path_in l f; location := l |}]).
Proof.
  intros Hrule Hp.
  destruct (rule_of_standard c f p mesg Hrule Hp)
    as (<- & Hm & v & negated & Hstack & Hcond).
  rewrite (validate_one_standard c v negated req l s Hstack), Hcond, Hm.
  destruct p; try contradiction; cbn [message_or_default];
    match goal with |- context [negb ?b] => destruct b end; reflexivity.
Qed.

Lemma isEmpty_eqb s : Validator.isEmpty s = String.eqb s "".
Proof. destruct s; reflexivity. Qed.

(** ** What each kind of rule accepts *)

(** X3.  The non-empty rules of the table, fourteen over five routes, test
    nothing but emptiness: applied to a string, each records its own
    message when the string is empty and nothing otherwise, so a blank
    string passes. *)
Theorem non_empty_rules_test_emptiness_only :
  forall (m : Method) (p f : string) (req : Request) (l : Location) (s : string),
    In (m, p, f)
       [ (POST, "/AddProduct", "productName"); (POST, "/AddProduct", "description");
         (POST, "/AddProduct", "categoryId"); (POST, "/AddProduct", "cityId");
         (POST, "/AddProduct", "conditionId");
         (PATCH, "/LikeProduct", "productId");
         (PATCH, "/AddProductToCart", "productId");
         (PUT, "/EditProduct", "productId");
         (PUT, "/EditProduct", "productName"); (PUT, "/EditProduct", "description");
         (PUT, "/EditProduct", "categoryId"); (PUT, "/EditProduct", "cityId");
         (PUT, "/EditProduct", "conditionId");
         (DELETE, "/DeleteProduct", "productId") ] ->
    exists c mesg,
      chain_of m p f = Some c
      /\ rule_of c = rule f NonEmpty mesg
      /\ validate c req l (Js.str s)
         = Js.Normal
             (if String.eqb s "" then
                [{| value := Js.str s; msg := mesg;
                    param := path_in l f; location := l |}]
              else []).
Proof.
  intros m p f req l s Hin.
  assert (Hc : exists c mesg,
             chain_of m p f = Some c /\ rule_of c = rule f NonEmpty mesg).
  { cbn [In] in Hin.
    repeat (destruct Hin as [[= <- <- <-] | Hin];
            [do 2 eexists; split; reflexivity | ]).
    destruct Hin. }
  destruct Hc as (c & mesg & Hchain & Hrule). exists c, mesg.
  split; [exact Hchain | split; [exact Hrule | ]].
  rewrite (validate_rule c f NonEmpty mesg req l s Hrule) by discriminate.
  rewrite isEmpty_eqb. destruct (String.eqb s ""); reflexivity.
Qed.

Lemma non_empty_rules_test_emptiness_only_witness :
  exists c mesg,
    chain_of POST "/AddProduct" "productName" = Some c
    /\ rule_of c = rule "productName" NonEmpty mesg
    /\ validate c (Sample.request Sample.with_token (Js.obj [])) InBody (Js.str " ")
       = Js.Normal [].
Proof.
  apply (non_empty_rules_test_emptiness_only POST "/AddProduct" "productName"
           (Sample.request Sample.with_token (Js.obj [])) InBody " ").
  left. reflexivity.
Defined.

(** X4.  The numeric rule of the table, the price of AddProduct and of
    EditProduct, accepts exactly the strings made of an optional sign,
    optional digits and a point, and at least one digit: a negative or a
    fractional numeral passes as a price. *)
Theorem price_rule_accepts_signed_decimals :
  forall (m : Method) (p : string) (req : Request) (l : Location) (s : string),
    In (m, p) [ (POST, "/AddProduct"); (PUT, "/EditProduct") ] ->
    exists c,
      chain_of m p "price" = Some c
      /\ rule_of c = rule "price" Numeric "Price should be a number"
      /\ (validate c req l (Js.str s) = Js.Normal [] <-> Validator.numeric s)
      /\ Validator.numeric "-100"
      /\ Validator.numeric "+.5".
Proof.
  intros m p req l s Hin.
  assert (Hc : exists c,
             chain_of m p "price" = Some c
             /\ rule_of c = rule "price" Numeric "Price should be a number").
  { cbn [In] in Hin.
    destruct Hin as [[= <- <-] | [[= <- <-] | []]]; eexists; split; reflexivity. }
  destruct Hc as (c & Hchain & Hrule). exists c.
  split; [exact Hchain | split; [exact Hrule | ]].
  rewrite (validate_rule c _ Numeric _ req l s Hrule) by discriminate.
  split; [ | split; apply isNumeric_spec; reflexivity].
  rewrite <- isNumeric_spec.
  destruct (Validator.isNumeric s); split; intros H;
    reflexivity || discriminate H.
Qed.

Lemma price_rule_accepts_signed_decimals_witness :
  exists c,
    chain_of PUT "/EditProduct" "price" = Some c
    /\ validate c (Sample.request Sample.with_token (Js.obj [])) InBody (Js.str "-100")
       = Js.Normal [].
Proof.
  destruct (price_rule_accepts_signed_decimals PUT "/EditProduct"
              (Sample.request Sample.with_token (Js.obj [])) InBody "-100")
    as (c & Hchain & _ & Hiff & Hneg & _).
  - right. left. reflexivity.
  - exists c. split; [exact Hchain | apply Hiff; exact Hneg].
Defined.

(** X5.  The boolean rule of the table, the forExchange of AddProduct and of
    EditProduct, accepts exactly the four strings "true", "false", "1" and
    "0", in this spelling. *)
Theorem forExchange_rule_accepts_four_strings :
  forall (m : Method) (p : string) (req : Request) (l : Location) (s : string),
    In (m, p) [ (POST, "/AddProduct"); (PUT, "/EditProduct") ] ->
    exists c,
      chain_of m p "forExchange" = Some c
      /\ rule_of c = rule "forExchange" Boolean "ForExchange should be boolean"
      /\ (validate c req l (Js.str s) = Js.Normal []
          <-> In s ["true"; "false"; "1"; "0"]).
Proof.
  intros m p req l s Hin.
  assert (Hc : exists c,
             chain_of m p "forExchange" = Some c
             /\ rule_of c = rule "forExchange" Boolean "ForExchange should be boolean").
  { cbn [In] in Hin.
    destruct Hin as [[= <- <-] | [[= <- <-] | []]]; eexists; split; reflexivity. }
  destruct Hc as (c & Hchain & Hrule). exists c.
  split; [exact Hchain | split; [exact Hrule | ]].
  rewrite (validate_rule c _ Boolean _ req l s Hrule) by discriminate.
  assert (Hb : Validator.isBoolean s = true <-> In s ["true"; "false"; "1"; "0"]).
  { unfold Validator.isBoolean. rewrite existsb_exists. split.
    - intros (x & Hx & Heq). apply String.eqb_eq in Heq. subst x. exact Hx.
    - intros Hx. exists s. split; [exact Hx | apply String.eqb_refl]. }
  rewrite <- Hb.
  destruct (Validator.isBoolean s); split; intros H;
    reflexivity || discriminate H.
Qed.

Lemma forExchange_rule_accepts_four_strings_witness :
  exists c,
    chain_of POST "/AddProduct" "forExchange" = Some c
    /\ validate c (Sample.request Sample.with_token (Js.obj [])) InBody (Js.str "True")
       <> Js.Normal [].
Proof.
  destruct (forExchange_rule_accepts_four_strings POST "/AddProduct"
              (Sample.request Sample.with_token (Js.obj [])) InBody "True")
    as (c & Hchain & _ & Hiff).
  - left. reflexivity.
  - exists c. split; [exact Hchain | ].
    intros H. apply Hiff in H. cbn [In] in H.
    destruct H as [H | [H | [H | [H | []]]]]; discriminate H.
Defined.

(** ** Where a field is looked for *)

(** The instances [getData] keeps when exactly one location has the field. *)
Lemma run_single_location c req l v :
  locations c = all_locations ->
  field_at req l (field c) = v ->
  is_defined v = true ->
  (forall l', l' <> l -> field_at req l' (field c) = Js.undefined) ->
  ExpressValidator.run c req = validate c req l v.
Proof.
  intros Hloc Hv Hdef Hothers.
  unfold ExpressValidator.run, validate. rewrite Hloc.
  unfold all_locations, selectFields. cbn [map].
  assert (Hd : getData
                 [ instance_at req (field c) InBody; instance_at req (field c) InCookies;
                   instance_at req (field c) InHeaders; instance_at req (field c) InParams;
                   instance_at req (field c) InQuery ]
               = [ {| inst_location := l; inst_path := path_in l (field c);
                      inst_value := v |} ]).
  { unfold getData. cbn [filter].
    change (inst_value (instance_at req (field c) InBody))
      with (field_at req InBody (field c)).
    change (inst_value (instance_at req (field c) InCookies))
      with (field_at req InCookies (field c)).
    change (inst_value (instance_at req (field c) InHeaders))
      with (field_at req InHeaders (field c)).
    change (inst_value (instance_at req (field c) InParams))
      with (field_at req InParams (field c)).
    change (inst_value (instance_at req (field c) InQuery))
      with (field_at req InQuery (field c)).
    destruct l;
      repeat match goal with
             | |- context [field_at req ?l' (field c)] =>
                 first [ rewrite (Hothers l') by discriminate
                       | rewrite Hv, Hdef ]
             end;
      cbn [is_defined]; unfold instance_at; cbn [inst_value];
      fold (field_at req InBody (field c)); try rewrite <- Hv; reflexivity. }
  rewrite Hd. reflexivity.
Qed.

(** The instance [getData] keeps when no location has the field. *)
Lemma run_absent c req :
  locations c = all_locations ->
  (forall l, field_at req l (field c) = Js.undefined) ->
  ExpressValidator.run c req = validate c req InBody Js.undefined.
Proof.
  intros Hloc Habsent.
  unfold ExpressValidator.run, validate. rewrite Hloc.
  unfold all_locations, selectFields, getData. cbn [map filter].
  change (inst_value (instance_at req (field c) InBody))
    with (field_at req InBody (field c)).
  change (inst_value (instance_at req (field c) InCookies))
    with (field_at req InCookies (field c)).
  change (inst_value (instance_at req (field c) InHeaders))
    with (field_at req InHeaders (field c)).
  change (inst_value (instance_at req (field c) InParams))
    with (field_at req InParams (field c)).
  change (inst_value (instance_at req (field c) InQuery))
    with (field_at req InQuery (field c)).
  rewrite !Habsent. cbn [is_defined].
  unfold instance_at.
  change (Js.get (at_location req InBody) (path_in InBody (field c)))
    with (field_at req InBody (field c)).
  rewrite Habsent. reflexivity.
Qed.

(** X6.  Every field a standard rule of the table checks is required: when
    no location of the request has the field, the chain records exactly one
    error, under the message of the rule, for the body. *)
Theorem checked_fields_are_required :
  forall (r : Route Middleware) (c : ValidationChain) (req : Request),
    In r ProductRouter ->
    In c (chains_of (Express.stack r)) ->
    field c <> "images" ->
    (forall l, field_at req l (field c) = Js.undefined) ->
    ExpressValidator.run c req
    = Js.Normal [{| value := Js.undefined;
                    msg := message_or_default (message c);
                    param := field c; location := InBody |}].
Proof.
  intros r c req Hr Hc Hfield Habsent.
  destruct (table_chains r c Hr Hc) as [(f & mesg & v & negated & -> & _ & Hv) | ->];
    [ | contradiction Hfield; reflexivity ].
  rewrite run_absent by (reflexivity || exact Habsent).
  cbn [In] in Hv.
  destruct Hv as [[= <- <-] | [[= <- <-] | [[= <- <-] | []]]]; reflexivity.
Qed.

Lemma checked_fields_are_required_witness :
  ExpressValidator.run (check "price" "Price should be a number" |> isNumeric)
    (Sample.request Sample.with_token (Js.obj []))
  = Js.Normal [{| value := Js.undefined; msg := "Price should be a number";
                  param := "price"; location := InBody |}].
Proof.
  refine (checked_fields_are_required
            {| method := POST; path := "/AddProduct";
               Express.stack :=
                 UserAuth :: map Validation (validators POST "/AddProduct")
                          ++ [Handler AddProduct] |}
            (check "price" "Price should be a number" |> isNumeric)
            (Sample.request Sample.with_token (Js.obj [])) _ _ _ _).
  - left. reflexivity.
  - right. left. reflexivity.
  - discriminate.
  - intros []; reflexivity.
Defined.

(** X7.  A field checked with [check] may come from any one of the body,
    the cookies, the headers, the route parameters and the query: when
    exactly one location has it, the chain validates the value found
    there.  A productId in the query string alone satisfies the productId
    rule. *)
Theorem checked_field_is_read_where_it_is :
  forall (r : Route Middleware) (c : ValidationChain) (req : Request)
         (l : Location) (v : Js.Value),
    In r ProductRouter ->
    In c (chains_of (Express.stack r)) ->
    field c <> "images" ->
    field_at req l (field c) = v ->
    is_defined v = true ->
    (forall l', l' <> l -> field_at req l' (field c) = Js.undefined) ->
    ExpressValidator.run c req = validate c req l v.
Proof.
  intros r c req l v Hr Hc Hfield Hv Hdef Hothers.
  destruct (table_chains r c Hr Hc) as [(f & mesg & v' & negated & -> & _ & _) | ->];
    [ | contradiction Hfield; reflexivity ].
  apply run_single_location; [reflexivity | assumption ..].
Qed.

Lemma checked_field_is_read_where_it_is_witness :
  let req :=
    {| req_body := Js.obj []; req_cookies := Js.obj [];
       req_headers := Sample.with_token; req_params := Js.obj [];
       req_query := Js.obj [("productId", Js.str "42")];
       req_user := Js.undefined; req_contexts := [] |} in
  ExpressValidator.run (check "productId" "Product id is required" |> not_ |> isEmpty) req
  = Js.Normal [].
Proof.
  cbv zeta.
  refine (eq_trans
            (checked_field_is_read_where_it_is
               {| method := DELETE; path := "/DeleteProduct";
                  Express.stack :=
                    [ UserAuth;
                      Validation (check "productId" "Product id is required"
                                  |> not_ |> isEmpty);
                      Handler DeleteProduct ] |}
               (check "productId" "Product id is required" |> not_ |> isEmpty)
               _ InQuery (Js.str "42") _ _ _ _ _ _)
            _).
  - do 7 right. left. reflexivity.
  - left. reflexivity.
  - discriminate.
  - reflexivity.
  - reflexivity.
  - intros [] H; reflexivity || (contradiction H; reflexivity).
  - reflexivity.
Defined.

Lemma getData_keeps_defined instances i :
  In i instances ->
  is_defined (inst_value i) = true ->
  In i (getData instances).
Proof.
  intros Hin Hdef. unfold getData.
  destruct instances as [ | a [ | b rest ] ]; [exact Hin | exact Hin | ].
  assert (Hf : In i (filter (fun i => is_defined (inst_value i)) (a :: b :: rest)))
    by (apply filter_In; split; assumption).
  destruct (filter _ (a :: b :: rest)); [destruct Hf | exact Hf].
Qed.

Lemma run_instances_In item message req data errors i :
  ExpressValidator.run_instances item message req data = Js.Normal errors ->
  In i data ->
  exists here,
    ExpressValidator.run_item item message req i = Js.Normal here
    /\ incl here errors.
Proof.
  revert errors. induction data as [ | d rest IH ]; intros errors Hrun Hin;
    [destruct Hin | ].
  simpl in Hrun.
  destruct (ExpressValidator.run_item item message req d) as [here | ] eqn:Hd;
    [ | discriminate Hrun ].
  simpl in Hrun.
  destruct (ExpressValidator.run_instances item message req rest) as [there | ] eqn:Hr;
    [ | discriminate Hrun ].
  injection Hrun as <-.
  destruct Hin as [<- | Hin].
  - exists here. split; [exact Hd | apply incl_appl, incl_refl].
  - destruct (IH there eq_refl Hin) as (h & Hh & Hincl).
    exists h. split; [exact Hh | apply incl_appr, Hincl].
Qed.

(** What a standard chain of the table records for a value in one location
    it records for the request, whatever the other locations hold. *)
Lemma run_records_rejection r c req l v e :
  In r ProductRouter ->
  In c (chains_of (Express.stack r)) ->
  field c <> "images" ->
  plain_request req = true ->
  field_at req l (field c) = v ->
  is_defined v = true ->
  validate c req l v = Js.Normal [e] ->
  exists errors,
    ExpressValidator.run c req = Js.Normal errors /\ In e errors.
Proof.
  intros Hr Hc Hfield Hplain Hat Hdef Hfails.
  destruct (table_chains r c Hr Hc) as [(f & mesg & s & negated & -> & _ & _) | ->];
    [ | contradiction Hfield; reflexivity ].
  cbn [field] in Hat.
  unfold ExpressValidator.run.
  cbn [field locations ExpressValidator.stack message ExpressValidator.run_stack].
  set (data := getData (selectFields req f all_locations)).
  assert (Hdata : Forall (fun i => Js.plain (inst_value i) = true) data).
  { apply Forall_forall. intros i Hi. apply getData_incl in Hi.
    unfold selectFields in Hi. apply in_map_iff in Hi. destruct Hi as [l' [<- _]].
    simpl. apply plain_get, plain_at_location, Hplain. }
  destruct (run_instances_plain (StandardValidation s negated) (Some mesg) req data Hdata)
    as [errors Herrors].
  rewrite Herrors. cbn [Js.bind]. exists (errors ++ []). split; [reflexivity | ].
  assert (Hin : In (instance_at req f l) data).
  { apply getData_keeps_defined.
    - unfold selectFields. apply in_map. destruct l; cbn [all_locations In]; tauto.
    - change (inst_value (instance_at req f l)) with (field_at req l f).
      rewrite Hat. exact Hdef. }
  destruct (run_instances_In _ _ _ _ _ _ Herrors Hin) as (here & Hhere & Hincl).
  apply in_or_app. left. apply Hincl.
  unfold validate in Hfails.
  cbn [field ExpressValidator.stack message ExpressValidator.run_stack
       ExpressValidator.run_instances] in Hfails.
  assert (Hi : instance_at req f l
               = {| inst_location := l; inst_path := path_in l f;
                    inst_value := v |}).
  { unfold instance_at. f_equal. exact Hat. }
  rewrite <- Hi, Hhere in Hfails. cbn [Js.bind] in Hfails.
  injection Hfails as Hfails. rewrite !app_nil_r in Hfails. rewrite Hfails.
  left. reflexivity.
Qed.

(** X8.  A field checked with [check] has to pass wherever it is: a string
    that fails the rule in one location has its error recorded for that
    location, whatever the other locations of the request hold. *)
Theorem checked_field_must_pass_everywhere :
  forall (r : Route Middleware) (c : ValidationChain) (req : Request)
         (l : Location) (s : string) (e : ValidationError),
    In r ProductRouter ->
    In c (chains_of (Express.stack r)) ->
    field c <> "images" ->
    plain_request req = true ->
    field_at req l (field c) = Js.str s ->
    validate c req l (Js.str s) = Js.Normal [e] ->
    exists errors,
      ExpressValidator.run c req = Js.Normal errors /\ In e errors.
Proof.
  intros r c req l s e Hr Hc Hfield Hplain Hat Hfails.
  exact (run_records_rejection r c req l (Js.str s) e
           Hr Hc Hfield Hplain Hat eq_refl Hfails).
Qed.

Lemma checked_field_must_pass_everywhere_witness :
  let req :=
    {| req_body := Js.obj [("productId", Js.str "42")]; req_cookies := Js.obj [];
       req_headers := Sample.with_token; req_params := Js.obj [];
       req_query := Js.obj [("productId", Js.str "")];
       req_user := Js.undefined; req_contexts := [] |} in
  exists errors,
    ExpressValidator.run (check "productId" "Product id is required" |> not_ |> isEmpty) req
    = Js.Normal errors
    /\ In {| value := Js.str ""; msg := "Product id is required";
             param := "productId"; location := InQuery |} errors.
Proof.
  cbv zeta.
  refine (checked_field_must_pass_everywhere
            {| method := DELETE; path := "/DeleteProduct";
               Express.stack :=
                 [ UserAuth;
                   Validation (check "productId" "Product id is required"
                               |> not_ |> isEmpty);
                   Handler DeleteProduct ] |}
            (check "productId" "Product id is required" |> not_ |> isEmpty)
            _ InQuery "" _ _ _ _ _ _ _).
  - do 7 right. left. reflexivity.
  - left. reflexivity.
  - discriminate.
  - reflexivity.
  - reflexivity.
  - reflexivity.
Defined.

(** ** The rule of images, at the edges *)

(** X9.  The rule of images is declared with [body]: its chain reads the
    body and nothing else, so two requests with the same body get the same
    verdict on images, whatever their query, cookies, headers and route
    parameters hold. *)
Theorem images_are_read_from_the_body_only :
  forall (m : Method) (p : string) (req req' : Request),
    In (m, p) [ (POST, "/AddProduct"); (PUT, "/EditProduct") ] ->
    req_body req = req_body req' ->
    exists c,
      chain_of m p "images" = Some c
      /\ locations c = [InBody]
      /\ ExpressValidator.run c req = ExpressValidator.run c req'.
Proof.
  intros m p req req' Hin Hbody.
  exists (body "images" |> custom AddProduct_images).
  cbn [In] in Hin.
  destruct Hin as [[= <- <-] | [[= <- <-] | []]];
    (split; [reflexivity | split; [reflexivity | ]]);
    rewrite !run_images; unfold ExpressValidator.run_custom, instance_at;
    cbn [inst_value at_location path_in inst_path inst_location];
    rewrite Hbody; reflexivity.
Qed.

Lemma images_are_read_from_the_body_only_witness :
  let req := Sample.request Sample.with_token Sample.one_image in
  let req' :=
    {| req_body := Sample.one_image; req_cookies := Js.obj [];
       req_headers := Sample.with_token; req_params := Js.obj [];
       req_query :=
         Js.obj [("images", Js.arr [Js.str "a.jpg"; Js.str "b.jpg"; Js.str "c.jpg"])];
       req_user := Js.undefined; req_contexts := [] |} in
  exists c,
    chain_of POST "/AddProduct" "images" = Some c
    /\ locations c = [InBody]
    /\ ExpressValidator.run c req = ExpressValidator.run c req'.
Proof.
  cbv zeta.
  apply (images_are_read_from_the_body_only POST "/AddProduct").
  - left. reflexivity.
  - reflexivity.
Defined.

(** X10.  When the body has no images, or has [null] for them, the rule of
    images still fails, by the exception the read of [value.length]
    raises: the chain records one error for images, and its message is not
    the "Each product should have at least 3 images" the validator
    declares. *)
Theorem missing_images_fail_under_another_message :
  forall (m : Method) (p : string) (req : Request),
    In (m, p) [ (POST, "/AddProduct"); (PUT, "/EditProduct") ] ->
    Js.get (req_body req) "images" = Js.undefined
    \/ Js.get (req_body req) "images" = Js.null ->
    exists c e,
      chain_of m p "images" = Some c
      /\ ExpressValidator.run c req = Js.Normal [e]
      /\ param e = "images"
      /\ location e = InBody
      /\ msg e <> "Each product should have at least 3 images".
Proof.
  intros m p req Hin Hmissing.
  exists (body "images" |> custom AddProduct_images).
  assert (Hrun : exists e,
             ExpressValidator.run (body "images" |> custom AddProduct_images) req
             = Js.Normal [e]
             /\ param e = "images" /\ location e = InBody
             /\ msg e <> "Each product should have at least 3 images").
  { rewrite run_images. unfold ExpressValidator.run_custom, instance_at.
    cbn [inst_value at_location path_in].
    destruct Hmissing as [-> | ->]; eexists;
      (split; [reflexivity | split; [reflexivity | split; [reflexivity | discriminate]]]). }
  destruct Hrun as (e & Hrun & Hparam & Hloc & Hmsg). exists e.
  cbn [In] in Hin.
  destruct Hin as [[= <- <-] | [[= <- <-] | []]];
    (split; [reflexivity | split; [exact Hrun | tauto]]).
Qed.

Lemma missing_images_fail_under_another_message_witness :
  exists c e,
    chain_of POST "/AddProduct" "images" = Some c
    /\ ExpressValidator.run c (Sample.request Sample.with_token (Js.obj [])) = Js.Normal [e]
    /\ param e = "images"
    /\ location e = InBody
    /\ msg e <> "Each product should have at least 3 images".
Proof.
  apply (missing_images_fail_under_another_message POST "/AddProduct"
           (Sample.request Sample.with_token (Js.obj []))).
  - left. reflexivity.
  - left. reflexivity.
Defined.

(** X11.  The rule of images passes every value that has no length: a
    number, a boolean, an object without a length property of its own. *)
Theorem images_without_a_length_pass :
  forall (m : Method) (p : string) (req : Request) (v : Js.Value),
    In (m, p) [ (POST, "/AddProduct"); (PUT, "/EditProduct") ] ->
    Js.get (req_body req) "images" = v ->
    Js.length_of v = Js.Normal Js.undefined ->
    (exists c,
       chain_of m p "images" = Some c
       /\ ExpressValidator.run c req = Js.Normal [])
    /\ (forall n, Js.length_of (Js.num n) = Js.Normal Js.undefined)
    /\ (forall b, Js.length_of (Js.bool b) = Js.Normal Js.undefined)
    /\ (forall props, Js.own props "length" = None ->
                      Js.length_of (Js.obj props) = Js.Normal Js.undefined).
Proof.
  intros m p req v Hin Hget Hlen.
  split; [ | split; [reflexivity | split; [reflexivity | ]]].
  - exists (body "images" |> custom AddProduct_images).
    assert (Hrun : ExpressValidator.run (body "images" |> custom AddProduct_images) req
                   = Js.Normal []).
    { rewrite run_images. unfold ExpressValidator.run_custom, instance_at.
      cbn [inst_value at_location path_in].
      rewrite Hget, (images_no_length v req Hlen). reflexivity. }
    cbn [In] in Hin.
    destruct Hin as [[= <- <-] | [[= <- <-] | []]];
      (split; [reflexivity | exact Hrun]).
  - intros props Hown. unfold Js.length_of, Js.get. rewrite Hown. reflexivity.
Qed.

Lemma images_without_a_length_pass_witness :
  let req := Sample.request Sample.with_token (Sample.product (Js.num 7)) in
  Js.get (req_body req) "images" = Js.num 7
  /\ Js.length_of (Js.num 7) = Js.Normal Js.undefined
  /\ exists c,
       chain_of PUT "/EditProduct" "images" = Some c
       /\ ExpressValidator.run c req = Js.Normal [].
Proof.
  cbv zeta.
  split; [reflexivity | split; [reflexivity | ]].
  refine (proj1 (images_without_a_length_pass PUT "/EditProduct"
                   (Sample.request Sample.with_token (Sample.product (Js.num 7)))
                   (Js.num 7) _ eq_refl eq_refl)).
  right. left. reflexivity.
Defined.

(** ** All the rules, in order *)

Lemma run_instances_standard_any_request v negated message a b data :
  ExpressValidator.run_instances (StandardValidation v negated) message a data
  = ExpressValidator.run_instances (StandardValidation v negated) message b data.
Proof.
  induction data as [ | i rest IH ]; [reflexivity | ].
  cbn [ExpressValidator.run_instances ExpressValidator.run_item]. rewrite IH. reflexivity.
Qed.

Lemma selectFields_same_fields a b f locs :
  same_fields a b -> selectFields a f locs = selectFields b f locs.
Proof.
  intros H. unfold selectFields. apply map_ext. intros l.
  unfold instance_at. rewrite (H l). reflexivity.
Qed.

(** What a chain of the table finds depends on the fields of the request
    only, not on what earlier middleware attached to it. *)
Lemma run_same_fields r c a b :
  In r ProductRouter ->
  In c (chains_of (Express.stack r)) ->
  same_fields a b ->
  ExpressValidator.run c a = ExpressValidator.run c b.
Proof.
  intros Hr Hc Hab.
  destruct (table_chains r c Hr Hc) as [(f & mesg & v & negated & -> & _ & _) | ->].
  - unfold ExpressValidator.run.
    cbn [field locations ExpressValidator.stack message ExpressValidator.run_stack].
    rewrite (selectFields_same_fields a b f all_locations Hab).
    rewrite (run_instances_standard_any_request v negated (Some mesg) a b).
    reflexivity.
  - rewrite !run_images. unfold ExpressValidator.run_custom, instance_at.
    rewrite (Hab InBody). reflexivity.
Qed.

Lemma contexts_exist (cs : list ValidationChain) (req : Request) :
  (forall c, In c cs -> exists errors, ExpressValidator.run c req = Js.Normal errors) ->
  exists contexts,
    Forall2 (fun c errors => ExpressValidator.run c req = Js.Normal errors) cs contexts.
Proof.
  induction cs as [ | c rest IH ]; intros H.
  - exists []. constructor.
  - destruct (H c (or_introl eq_refl)) as [errors Hc].
    destruct IH as [contexts Hrest]; [intros c' Hin; apply H; right; exact Hin | ].
    exists (errors :: contexts). constructor; assumption.
Qed.

Lemma validationResult_fold contexts :
  forall req,
    validationResult (fold_left with_context contexts req)
    = validationResult req ++ concat contexts.
Proof.
  induction contexts as [ | errors rest IH ]; intros req; simpl.
  - rewrite app_nil_r. reflexivity.
  - rewrite IH, validationResult_with_context, <- app_assoc. reflexivity.
Qed.

Lemma same_fields_fold contexts :
  forall req, same_fields req (fold_left with_context contexts req).
Proof.
  induction contexts as [ | errors rest IH ]; intros req; simpl.
  - apply same_fields_refl.
  - eapply same_fields_trans; [apply same_fields_with_context | apply IH].
Qed.

(** Chains that run to completion, each finding the same on every request
    of the same fields, leave their findings on the request in order and
    hand it on to the handler. *)
Lemma dispatch_chains_in_order verify h cs :
  forall contexts req,
    Forall2 (fun c errors =>
               forall r, same_fields req r ->
                         ExpressValidator.run c r = Js.Normal errors) cs contexts ->
    result (dispatch (call verify) (map Validation cs ++ [Handler h]) req)
      = Sent (Answer h (fold_left with_context contexts req))
    /\ handlers_called (dispatch (call verify) (map Validation cs ++ [Handler h]) req)
       = [h]
    /\ chains_run (dispatch (call verify) (map Validation cs ++ [Handler h]) req)
       = cs.
Proof.
  induction cs as [ | c rest IH ]; intros contexts req Hall;
    inversion Hall as [ | ? errors ? contexts' Hc Hrest ]; subst.
  - repeat split.
  - cbn [map app dispatch call]. unfold call_Validation.
    rewrite (Hc req (same_fields_refl req)).
    destruct (IH contexts' (with_context req errors)) as (Hres & Hcalled & Hchains).
    { eapply Forall2_impl; [ | exact Hrest ].
      intros c' errors' H r Hr. apply H.
      eapply same_fields_trans; [apply same_fields_with_context | exact Hr]. }
    cbn [result calls fold_left].
    split; [exact Hres | split; [exact Hcalled | ]].
    unfold chains_run in *. cbn [calls map fst chains_of]. rewrite Hchains. reflexivity.
Qed.

Lemma req_user_fold contexts :
  forall req, req_user (fold_left with_context contexts req) = req_user req.
Proof.
  induction contexts as [ | errors rest IH ]; intros req; simpl; [reflexivity | ].
  rewrite IH. reflexivity.
Qed.

Lemma Forall2_In_impl {A B : Type} (P Q : A -> B -> Prop) (l : list A) (l' : list B) :
  (forall a b, In a l -> P a b -> Q a b) ->
  Forall2 P l l' -> Forall2 Q l l'.
Proof.
  intros H Hall. induction Hall as [ | a b l l' Hab _ IH ]; constructor.
  - apply H; [left; reflexivity | exact Hab].
  - apply IH. intros a' b' Hin. apply H. right. exact Hin.
Qed.

Lemma route_shape r :
  In r ProductRouter ->
  route_of (method r) (path r) = Some r
  /\ exists cs h,
       Express.stack r = UserAuth :: map Validation cs ++ [Handler h]
       /\ chains_of (Express.stack r) = cs.
Proof.
  intros Hin. each_route Hin; (split; [reflexivity | ]).
  all: match goal with
       | |- exists cs h, UserAuth :: ?rest = _ /\ _ =>
           exists (chains_of rest); eexists; split; reflexivity
       end.
Qed.

Lemma chains_of_shape cs h :
  chains_of (UserAuth :: map Validation cs ++ [Handler h]) = cs.
Proof.
  cbn [chains_of]. induction cs as [ | c rest IH ]; [reflexivity | ].
  cbn [map app chains_of]. rewrite IH. reflexivity.
Qed.

(** An authenticated request to a route whose chains run to completion on
    it: the handler is given the request with the identity and then the
    findings of the chains attached, in the order of the chains. *)
Lemma serve_in_order verify r cs h req identity contexts :
  In r ProductRouter ->
  Express.stack r = UserAuth :: map Validation cs ++ [Handler h] ->
  authenticate verify req = Some identity ->
  Forall2 (fun c errors => ExpressValidator.run c req = Js.Normal errors) cs contexts ->
  result (serve verify (method r) (path r) req)
    = Sent (Answer h (fold_left with_context contexts (with_user req identity)))
  /\ handlers_called (serve verify (method r) (path r) req) = [h]
  /\ chains_run (serve verify (method r) (path r) req) = cs.
Proof.
  intros Hr Hstack Hauth Hcontexts.
  destruct (route_shape r Hr) as (Hroute & _).
  rewrite serve_route, Hroute, Hstack.
  rewrite (dispatch_authenticated verify _ req identity Hauth). cbn [result calls].
  apply dispatch_chains_in_order.
  eapply Forall2_In_impl; [ | exact Hcontexts ].
  intros c errors Hin Hrun r' Hr'. rewrite <- Hrun. symmetry.
  apply (run_same_fields r c req r' Hr).
  - rewrite Hstack, chains_of_shape. exact Hin.
  - eapply same_fields_trans; [apply same_fields_with_user | exact Hr'].
Qed.

(** X12.  Every rule of a route is evaluated and reported, in the order of
    the declaration: on each of the eight routes, an authenticated request
    of plain fields runs every chain of the route, a failing rule stopping
    none of the later ones, and the handler is called once with the
    identity attached, the fields as they came, and the errors of all the
    chains, in order, behind those the request carried. *)
Theorem every_rule_is_evaluated_and_reported :
  forall (verify : string -> option Js.Value) (r : Route Middleware)
         (req : Request) (identity : Js.Value),
    In r ProductRouter ->
    authenticate verify req = Some identity ->
    plain_request req = true ->
    exists h contexts req',
      Forall2 (fun c errors => ExpressValidator.run c req = Js.Normal errors)
        (chains_of (Express.stack r)) contexts
      /\ result (serve verify (method r) (path r) req) = Sent (Answer h req')
      /\ handlers_called (serve verify (method r) (path r) req) = [h]
      /\ chains_run (serve verify (method r) (path r) req) = chains_of (Express.stack r)
      /\ validationResult req' = validationResult req ++ concat contexts
      /\ same_fields req req'
      /\ req_user req' = identity.
Proof.
  intros verify r req identity Hr Hauth Hplain.
  destruct (route_shape r Hr) as (_ & cs & h & Hstack & Hcs).
  destruct (contexts_exist cs req) as [contexts Hcontexts].
  { intros c _. apply run_plain. exact Hplain. }
  destruct (serve_in_order verify r cs h req identity contexts Hr Hstack Hauth Hcontexts)
    as (Hres & Hcalled & Hchains).
  exists h, contexts, (fold_left with_context contexts (with_user req identity)).
  rewrite Hcs.
  split; [exact Hcontexts | ].
  split; [exact Hres | ].
  split; [exact Hcalled | ].
  split; [exact Hchains | ].
  split; [rewrite validationResult_fold; reflexivity | ].
  split.
  - eapply same_fields_trans; [apply same_fields_with_user | apply same_fields_fold].
  - rewrite req_user_fold. reflexivity.
Qed.

Lemma every_rule_is_evaluated_and_reported_witness :
  let r := {| method := PATCH; path := "/LikeProduct";
              Express.stack :=
                [ UserAuth;
                  Validation (check "productId" "Product id is required"
                              |> not_ |> isEmpty);
                  Handler LikeProduct ] |} in
  let req := Sample.request Sample.with_token (Js.obj []) in
  In r ProductRouter
  /\ authenticate Sample.verify req = Some (Js.str "user-1")
  /\ plain_request req = true
  /\ exists h contexts req',
       Forall2 (fun c errors => ExpressValidator.run c req = Js.Normal errors)
         (chains_of (Express.stack r)) contexts
       /\ result (serve Sample.verify PATCH "/LikeProduct" req) = Sent (Answer h req')
       /\ handlers_called (serve Sample.verify PATCH "/LikeProduct" req) = [h]
       /\ chains_run (serve Sample.verify PATCH "/LikeProduct" req)
          = chains_of (Express.stack r)
       /\ validationResult req' = validationResult req ++ concat contexts
       /\ same_fields req req'
       /\ req_user req' = Js.str "user-1".
Proof.
  cbv zeta.
  assert (Hin : In {| method := PATCH; path := "/LikeProduct";
                      Express.stack :=
                        [ UserAuth;
                          Validation (check "productId" "Product id is required"
                                      |> not_ |> isEmpty);
                          Handler LikeProduct ] |} ProductRouter)
    by (right; left; reflexivity).
  split; [exact Hin | split; [reflexivity | split; [reflexivity | ]]].
  exact (every_rule_is_evaluated_and_reported Sample.verify _
           (Sample.request Sample.with_token (Js.obj [])) (Js.str "user-1")
           Hin eq_refl eq_refl).
Defined.

(** ** Values that are not strings *)


Lemma string_of_uint_nonempty d : d <> Decimal.Nil -> NilEmpty.string_of_uint d <> "".
Proof. destruct d; intros H; [contradiction | discriminate ..]. Qed.




(** X14.  A field that is [null] counts as missing: a standard rule of the
    table records its error for a [null] wherever a location of the request
    holds one. *)
Theorem null_fails_every_standard_rule :
  forall (r : Route Middleware) (c : ValidationChain) (req : Request) (l : Location),
    In r ProductRouter ->
    In c (chains_of (Express.stack r)) ->
    field c <> "images" ->
    plain_request req = true ->
    field_at req l (field c) = Js.null ->
    exists errors,
      ExpressValidator.run c req = Js.Normal errors
      /\ In {| value := Js.null; msg := message_or_default (message c);
               param := path_in l (field c); location := l |} errors.
Proof.
  intros r c req l Hr Hc Hfield Hplain Hat.
  apply (run_records_rejection r c req l Js.null _ Hr Hc Hfield Hplain Hat eq_refl).
  destruct (table_chains r c Hr Hc) as [(f & mesg & v & negated & -> & _ & Hv) | ->];
    [ | contradiction Hfield; reflexivity ].
  cbn [In] in Hv.
  destruct Hv as [[= <- <-] | [[= <- <-] | [[= <- <-] | []]]]; reflexivity.
Qed.

Lemma null_fails_every_standard_rule_witness :
  let req := Sample.request Sample.with_token (Js.obj [("productId", Js.null)]) in
  exists errors,
    ExpressValidator.run (check "productId" "Product id is required" |> not_ |> isEmpty) req
    = Js.Normal errors
    /\ In {| value := Js.null; msg := "Product id is required";
             param := "productId"; location := InBody |} errors.
Proof.
  cbv zeta.
  refine (null_fails_every_standard_rule
            {| method := DELETE; path := "/DeleteProduct";
               Express.stack :=
                 [ UserAuth;
                   Validation (check "productId" "Product id is required"
                               |> not_ |> isEmpty);
                   Handler DeleteProduct ] |}
            (check "productId" "Product id is required" |> not_ |> isEmpty)
            _ InBody _ _ _ _ _).
  - do 7 right. left. reflexivity.
  - left. reflexivity.
  - discriminate.
  - reflexivity.
  - reflexivity.
Defined.

(** ** EditProduct against AddProduct *)

(** X15.  What EditProduct reports for a request is what AddProduct reports
    for it, behind the verdict on productId: for an authenticated request
    of plain fields, the errors handed to the handler of EditProduct are
    those of the productId rule followed by the errors handed to the
    handler of AddProduct. *)
Theorem EditProduct_reports_productId_then_what_AddProduct_reports :
  forall (verify : string -> option Js.Value) (req : Request) (identity : Js.Value),
    authenticate verify req = Some identity ->
    plain_request req = true ->
    exists pid reported reqA reqE,
      ExpressValidator.run (check "productId" "Product id is required" |> not_ |> isEmpty)
        req = Js.Normal pid
      /\ result (serve verify POST "/AddProduct" req) = Sent (Answer AddProduct reqA)
      /\ result (serve verify PUT "/EditProduct" req) = Sent (Answer EditProduct reqE)
      /\ validationResult reqA = validationResult req ++ reported
      /\ validationResult reqE = validationResult req ++ pid ++ reported.
Proof.
  intros verify req identity Hauth Hplain.
  destruct (contexts_exist (validators PUT "/EditProduct") req) as [contexts Hcontexts].
  { intros c _. apply run_plain. exact Hplain. }
  inversion Hcontexts as [ | c pid cs contextsA Hpid HcontextsA Hc Hl ]. subst.
  set (rA := {| method := POST; path := "/AddProduct";
                Express.stack :=
                  UserAuth :: map Validation (validators POST "/AddProduct")
                           ++ [Handler AddProduct] |}).
  set (rE := {| method := PUT; path := "/EditProduct";
                Express.stack :=
                  UserAuth :: map Validation (validators PUT "/EditProduct")
                           ++ [Handler EditProduct] |}).
  assert (HrA : In rA ProductRouter) by (left; reflexivity).
  assert (HrE : In rE ProductRouter) by (do 6 right; left; reflexivity).
  destruct (serve_in_order verify rA _ AddProduct req identity contextsA
              HrA eq_refl Hauth HcontextsA) as (HresA & _).
  destruct (serve_in_order verify rE _ EditProduct req identity (pid :: contextsA)
              HrE eq_refl Hauth Hcontexts) as (HresE & _).
  exists pid, (concat contextsA),
    (fold_left with_context contextsA (with_user req identity)),
    (fold_left with_context (pid :: contextsA) (with_user req identity)).
  split; [exact Hpid | ].
  split; [exact HresA | ].
  split; [exact HresE | ].
  split; rewrite validationResult_fold; reflexivity.
Qed.

Lemma EditProduct_reports_productId_then_what_AddProduct_reports_witness :
  let req := Sample.request Sample.with_token Sample.bike in
  authenticate Sample.verify req = Some (Js.str "user-1")
  /\ plain_request req = true
  /\ exists pid reported reqA reqE,
       ExpressValidator.run (check "productId" "Product id is required" |> not_ |> isEmpty)
         req = Js.Normal pid
       /\ result (serve Sample.verify POST "/AddProduct" req) = Sent (Answer AddProduct reqA)
       /\ result (serve Sample.verify PUT "/EditProduct" req) = Sent (Answer EditProduct reqE)
       /\ validationResult reqA = validationResult req ++ reported
       /\ validationResult reqE = validationResult req ++ pid ++ reported.
Proof.
  cbv zeta.
  split; [reflexivity | split; [reflexivity | ]].
  exact (EditProduct_reports_productId_then_what_AddProduct_reports
           Sample.verify (Sample.request Sample.with_token Sample.bike)
           (Js.str "user-1") eq_refl eq_refl).
Defined.
